(** * Point-of-sale store: pricing and order lifecycle

  A shallow embedding of [src/utils.ts] (bundle pricing), [src/types.ts]
  (the data model) and [src/hooks/useStore.tsx] (the store actions, the
  realtime subscription handlers and the row mappers).

  Numbers.  The TypeScript [number]s of this program hold rupiah amounts
  and item counts; they are modelled as [Z] (double arithmetic is exact on
  integers below 2^53).  On [Z] the only falsy number is [0].
  [Math.floor (a / b)] is [Z.div] (rounds towards minus infinity) and the
  JavaScript remainder [a % b] is [Z.rem] (sign of the dividend).

  Optional fields ([image?], [bundle?], [note?], [isPrepared?]) are
  [option]s: [None] is [undefined]. *)

From Stdlib Require Import ZArith List String Bool Lia.
From Stdlib Require Import DecimalString.
Import ListNotations.

(** ** types.ts *)

Inductive Category := Coffee | Tea | Food | Dessert | Other.

Module BundleConfig.
Record t := mk {
  enabled : bool;
  buyQuantity : Z;
  bundlePrice : Z;
  showPromoLabel : bool }.
End BundleConfig.

Module MenuItem.
Record t := mk {
  id : string;
  name : string;
  basePrice : Z;
  category : Category;
  image : option string;
  bundle : option BundleConfig.t }.
End MenuItem.

(** [interface CartItem extends MenuItem]: the menu item's fields, then the
    cart's own. *)
Module CartItem.
Record t := mk {
  id : string;
  name : string;
  basePrice : Z;
  category : Category;
  image : option string;
  bundle : option BundleConfig.t;
  quantity : Z;
  note : option string;
  isPrepared : option bool }.

(** The object spread [{ ...item, isPrepared: b }]. *)
Definition with_isPrepared (item : t) (b : bool) : t :=
  mk (id item) (name item) (basePrice item) (category item) (image item)
     (bundle item) (quantity item) (note item) (Some b).
End CartItem.

Module OrderStatus.
Inductive t := Pending | Paid | Completed | Cancelled | Preparing | PickedUp.

Definition eqb (a b : t) : bool :=
  match a, b with
  | Pending, Pending | Paid, Paid | Completed, Completed
  | Cancelled, Cancelled | Preparing, Preparing | PickedUp, PickedUp => true
  | _, _ => false
  end.
End OrderStatus.

Module PaymentStatus.
Inductive t := Paid | Unpaid.

Definition eqb (a b : t) : bool :=
  match a, b with
  | Paid, Paid | Unpaid, Unpaid => true
  | _, _ => false
  end.
End PaymentStatus.

Module Order.
Record t := mk {
  id : string;
  customerName : string;
  items : list CartItem.t;
  total : Z;
  status : OrderStatus.t;
  paymentStatus : PaymentStatus.t;
  createdAt : string;
  note : option string }.
End Order.

(** [Omit<Order, 'id' | 'createdAt' | 'status'>], the argument of
  [createOrder]. *)
Module OrderData.
Record t := mk {
  customerName : string;
  items : list CartItem.t;
  total : Z;
  paymentStatus : PaymentStatus.t;
  note : option string }.
End OrderData.

(** [Omit<MenuItem, 'id'>], the argument of [addMenuItem]. *)
Module NewMenuItem.
Record t := mk {
  name : string;
  basePrice : Z;
  category : Category;
  image : option string;
  bundle : option BundleConfig.t }.
End NewMenuItem.

(** ** JavaScript truthiness of the values the code tests *)

Definition truthyZ (n : Z) : bool := negb (n =? 0)%Z.

Definition truthyFlag (b : option bool) : bool :=
  match b with
  | Some true => true
  | Some false | None => false
  end.

(** ** utils.ts *)

Module Utils.

Definition calculateItemTotal (item : MenuItem.t) (quantity : Z) : Z :=
  match MenuItem.bundle item with
  | None => MenuItem.basePrice item * quantity
  | Some bundle =>
      if negb (BundleConfig.enabled bundle)
         || negb (truthyZ (BundleConfig.buyQuantity bundle))
         || negb (truthyZ (BundleConfig.bundlePrice bundle))
      then MenuItem.basePrice item * quantity
      else
        let buyQuantity := BundleConfig.buyQuantity bundle in
        let bundlePrice := BundleConfig.bundlePrice bundle in
        let bundleCount := quantity / buyQuantity in
        let remaining := Z.rem quantity buyQuantity in
        (bundleCount * bundlePrice) + (remaining * MenuItem.basePrice item)
  end%Z.

End Utils.

(** ** Backend documents (snake_case rows of the two tables) *)

(** A row of [menu_items], as [mapDbMenuItem] reads it. *)
Module DbMenuItem.
Record t := mk {
  id : string;
  name : string;
  base_price : Z;
  category : Category;
  image : option string;
  bundle_config : option BundleConfig.t }.
End DbMenuItem.

(** The object literal [dbItem] that [addMenuItem] hands to [insert]. *)
Module MenuInsert.
Record t := mk {
  name : string;
  base_price : Z;
  category : Category;
  bundle_config : option BundleConfig.t }.

(** The default of the [bundle_config] column in the schema, the document
    [{ enabled: false }]: its three missing keys read as [undefined], which
    every test of the code treats as it treats [0] and [false]. *)
Definition columnDefault : BundleConfig.t := BundleConfig.mk false 0 0 false.

(** The row the backend stores for an inserted document: the keys the
    document carries, under the identity the backend assigns; [image],
    which the document never carries, is empty, and [bundle_config] falls
    back to the column default when the document has none. *)
Definition row (uuid : string) (doc : t) : DbMenuItem.t :=
  DbMenuItem.mk uuid (name doc) (base_price doc) (category doc) None
                (match bundle_config doc with
                 | Some b => Some b
                 | None => Some columnDefault
                 end).
End MenuInsert.

(** A row of [orders], as [mapDbOrder] reads it. *)
Module DbOrder.
Record t := mk {
  id : string;
  customer_name : string;
  items : list CartItem.t;
  total : Z;
  status : OrderStatus.t;
  payment_status : PaymentStatus.t;
  created_at : string;
  note : option string }.
End DbOrder.

(** The object literal [dbOrder] that [createOrder] hands to [insert]. *)
Module OrdersInsert.
Record t := mk {
  customer_name : string;
  items : list CartItem.t;
  total : Z;
  status : OrderStatus.t;
  payment_status : PaymentStatus.t;
  note : option string }.
End OrdersInsert.

(** The calls the store makes on the remote backend. *)
Inductive Request :=
| MenuItemsInsert (dbItem : MenuInsert.t)
| MenuItemsDelete (id : string)
| OrdersInsertSelect (dbOrder : OrdersInsert.t)
| OrdersUpdateStatus (id : string) (status : OrderStatus.t)
| OrdersUpdateItems (id : string) (items : list CartItem.t)
                    (status : OrderStatus.t)
| OrdersDelete (id : string).

(** A [postgres_changes] notification: [eventType] with the row image
    ([payload.new] or [payload.old]) the handlers read. *)
Inductive Payload (Row : Type) :=
| INSERT (new : Row)
| UPDATE (new : Row)
| DELETE (old : Row).

Arguments INSERT {Row} new.
Arguments UPDATE {Row} new.
Arguments DELETE {Row} old.

(** [Partial<MenuItem>], the second argument of [updateMenuItem]: [None] is
    a key the object does not have.  For the two optional fields the inner
    [option] is the value under the key. *)
Module MenuUpdates.
Record t := mk {
  id : option string;
  name : option string;
  basePrice : option Z;
  category : option Category;
  image : option (option string);
  bundle : option (option BundleConfig.t) }.

(** The object spread [{ ...item, ...updates }]. *)
Definition spread (item : MenuItem.t) (updates : t) : MenuItem.t :=
  MenuItem.mk
    (match id updates with Some v => v | None => MenuItem.id item end)
    (match name updates with Some v => v | None => MenuItem.name item end)
    (match basePrice updates with Some v => v | None => MenuItem.basePrice item end)
    (match category updates with Some v => v | None => MenuItem.category item end)
    (match image updates with Some v => v | None => MenuItem.image item end)
    (match bundle updates with Some v => v | None => MenuItem.bundle item end).
End MenuUpdates.

(** The object [dbUpdates] that [updateMenuItem] fills key by key. *)
Module DbUpdates.
Record t := mk {
  name : option string;
  base_price : option Z;
  category : option Category;
  bundle_config : option BundleConfig.t }.
End DbUpdates.

(** The call [update (dbUpdates).eq ('id', id)] on [menu_items]. *)
Inductive MenuItemsUpdate :=
| MenuItemsUpdateEq (dbUpdates : DbUpdates.t) (id : string).

Definition truthyString (s : string) : bool := negb (String.eqb s "").

(** ** hooks/useStore.tsx *)

Module UseStore.

(** The React state of [StoreProvider].  [isRealtime] stands for the test
    [isRealtime && supabase]: the flag is only ever set when the client
    exists. *)
Record Store := mkStore {
  menu : list MenuItem.t;
  orders : list Order.t;
  isRealtime : bool }.

Definition setMenu (s : Store) (f : list MenuItem.t -> list MenuItem.t) : Store :=
  mkStore (f (menu s)) (orders s) (isRealtime s).

Definition setOrders (s : Store) (f : list Order.t -> list Order.t) : Store :=
  mkStore (menu s) (f (orders s)) (isRealtime s).

(** *** Row mappers *)

Definition mapDbMenuItem (dbItem : DbMenuItem.t) : MenuItem.t :=
  MenuItem.mk (DbMenuItem.id dbItem) (DbMenuItem.name dbItem)
              (DbMenuItem.base_price dbItem) (DbMenuItem.category dbItem)
              (DbMenuItem.image dbItem) (DbMenuItem.bundle_config dbItem).

Definition mapDbOrder (dbOrder : DbOrder.t) : Order.t :=
  Order.mk (DbOrder.id dbOrder) (DbOrder.customer_name dbOrder)
           (DbOrder.items dbOrder) (DbOrder.total dbOrder)
           (DbOrder.status dbOrder) (DbOrder.payment_status dbOrder)
           (DbOrder.created_at dbOrder) (DbOrder.note dbOrder).

(** *** Subscription handlers: each is the state updater it installs *)

Definition menuSub (payload : Payload DbMenuItem.t)
                   (prev : list MenuItem.t) : list MenuItem.t :=
  match payload with
  | INSERT new => prev ++ [mapDbMenuItem new]
  | UPDATE new =>
      map (fun item =>
             if String.eqb (MenuItem.id item) (DbMenuItem.id new)
             then mapDbMenuItem new else item) prev
  | DELETE old =>
      filter (fun item =>
                negb (String.eqb (MenuItem.id item) (DbMenuItem.id old))) prev
  end.

Definition ordersSub (payload : Payload DbOrder.t)
                     (prev : list Order.t) : list Order.t :=
  match payload with
  | INSERT new => mapDbOrder new :: prev
  | UPDATE new =>
      map (fun order =>
             if String.eqb (Order.id order) (DbOrder.id new)
             then mapDbOrder new else order) prev
  | DELETE _ => prev
  end.

(** *** Actions

    An action takes the committed state and gives the next state with the
    backend calls it made.  [generateId ()] and [new Date ().toISOString ()]
    are read from the environment and passed in. *)

Definition dbItemOf (item : NewMenuItem.t) : MenuInsert.t :=
  MenuInsert.mk (NewMenuItem.name item) (NewMenuItem.basePrice item)
                (NewMenuItem.category item) (NewMenuItem.bundle item).

Definition addMenuItem (s : Store) (generateId : string)
                       (item : NewMenuItem.t) : Store * list Request :=
  if isRealtime s then
    let dbItem := dbItemOf item in
    (s, [MenuItemsInsert dbItem])
  else
    let newItem :=
      MenuItem.mk generateId (NewMenuItem.name item)
                  (NewMenuItem.basePrice item) (NewMenuItem.category item)
                  (NewMenuItem.image item) (NewMenuItem.bundle item) in
    (setMenu s (fun prev => prev ++ [newItem]), []).

Definition deleteMenuItem (s : Store) (id : string) : Store * list Request :=
  if isRealtime s then (s, [MenuItemsDelete id])
  else (setMenu s (filter (fun item => negb (String.eqb (MenuItem.id item) id))),
        []).

Definition deleteOrder (s : Store) (id : string) : Store * list Request :=
  if isRealtime s then (s, [OrdersDelete id])
  else (setOrders s (filter (fun order => negb (String.eqb (Order.id order) id))),
        []).

Definition newOrderLocal (generateId now : string)
                         (orderData : OrderData.t) : Order.t :=
  Order.mk generateId
           (OrderData.customerName orderData)
           (map (fun item => CartItem.with_isPrepared item false)
                (OrderData.items orderData))
           (OrderData.total orderData)
           (if PaymentStatus.eqb (OrderData.paymentStatus orderData)
                                 PaymentStatus.Paid
            then OrderStatus.Paid else OrderStatus.Pending)
           (OrderData.paymentStatus orderData)
           now
           (OrderData.note orderData).

Definition dbOrderOf (orderData : OrderData.t) (local : Order.t) : OrdersInsert.t :=
  OrdersInsert.mk (OrderData.customerName orderData) (Order.items local)
                  (OrderData.total orderData) (Order.status local)
                  (OrderData.paymentStatus orderData) (OrderData.note orderData).

(** [single] is the backend's answer to [insert (dbOrder).select ().single ()]:
    the stored row, or no data. *)
Definition createOrder (s : Store) (generateId now : string)
                       (single : OrdersInsert.t -> option DbOrder.t)
                       (orderData : OrderData.t)
  : Store * list Request * option Order.t :=
  let local := newOrderLocal generateId now orderData in
  if isRealtime s then
    let dbOrder := dbOrderOf orderData local in
    match single dbOrder with
    | Some data => (s, [OrdersInsertSelect dbOrder], Some (mapDbOrder data))
    | None => (s, [OrdersInsertSelect dbOrder], None)
    end
  else
    (setOrders s (fun prev => local :: prev), [], Some local).

Definition withStatus (order : Order.t) (status : OrderStatus.t) : Order.t :=
  Order.mk (Order.id order) (Order.customerName order) (Order.items order)
           (Order.total order) status (Order.paymentStatus order)
           (Order.createdAt order) (Order.note order).

Definition updateOrderStatus (s : Store) (id : string)
                             (status : OrderStatus.t) : Store * list Request :=
  if isRealtime s then (s, [OrdersUpdateStatus id status])
  else (setOrders s (map (fun order =>
                            if String.eqb (Order.id order) id
                            then withStatus order status else order)),
        []).

(** [{ ...o, items: updatedItems, status: newStatus }] *)
Definition withItemsStatus (o : Order.t) (updatedItems : list CartItem.t)
                           (newStatus : OrderStatus.t) : Order.t :=
  Order.mk (Order.id o) (Order.customerName o) updatedItems (Order.total o)
           newStatus (Order.paymentStatus o) (Order.createdAt o) (Order.note o).

Definition toggledItems (order : Order.t) (itemId : string) : list CartItem.t :=
  map (fun item =>
         if String.eqb (CartItem.id item) itemId
         then CartItem.with_isPrepared item
                (negb (truthyFlag (CartItem.isPrepared item)))
         else item)
      (Order.items order).

Definition preparedCountOf (items : list CartItem.t) : nat :=
  List.length (filter (fun i => truthyFlag (CartItem.isPrepared i)) items).

Definition derivedStatus (order : Order.t)
                         (updatedItems : list CartItem.t) : OrderStatus.t :=
  let totalItems := List.length updatedItems in
  let preparedCount := preparedCountOf updatedItems in
  if negb (OrderStatus.eqb (Order.status order) OrderStatus.Cancelled)
     && negb (OrderStatus.eqb (Order.status order) OrderStatus.PickedUp)
  then
    if Nat.eqb preparedCount 0 then OrderStatus.Pending
    else if Nat.eqb preparedCount totalItems then OrderStatus.Completed
    else OrderStatus.Preparing
  else Order.status order.

Definition findOrder (orderId : string) (orders : list Order.t) : option Order.t :=
  find (fun o => String.eqb (Order.id o) orderId) orders.

Definition toggleOrderItemPrepared (s : Store) (orderId itemId : string)
  : Store * list Request :=
  match findOrder orderId (orders s) with
  | None => (s, [])
  | Some order =>
      let updatedItems := toggledItems order itemId in
      let newStatus := derivedStatus order updatedItems in
      if isRealtime s then
        (s, [OrdersUpdateItems orderId updatedItems newStatus])
      else
        (setOrders s (map (fun o =>
                             if String.eqb (Order.id o) orderId
                             then withItemsStatus o updatedItems newStatus
                             else o)),
         [])
  end.

(** A run of toggle events, each handled against the committed state. *)
Fixpoint toggleAll (s : Store) (events : list (string * string))
  : Store * list Request :=
  match events with
  | [] => (s, [])
  | (orderId, itemId) :: rest =>
      let '(s1, sent1) := toggleOrderItemPrepared s orderId itemId in
      let '(s2, sent2) := toggleAll s1 rest in
      (s2, sent1 ++ sent2)
  end.

(** *** The context hook

    [providers] lists the [StoreContext.Provider] values enclosing the
    calling component, innermost first; [useContext] gives the innermost,
    or the context's default, which [createContext] sets to [undefined]. *)

Inductive Thrown := Error (message : string).

Definition useContext {V : Type} (providers : list V) : option V :=
  match providers with
  | value :: _ => Some value
  | [] => None
  end.

Definition useStore {V : Type} (providers : list V) : Thrown + V :=
  let context := useContext providers in
  match context with
  | None => inl (Error "useStore must be used within a StoreProvider")
  | Some context => inr context
  end.

(** *** The menu edit action *)

Definition dbUpdatesOf (updates : MenuUpdates.t) : DbUpdates.t :=
  DbUpdates.mk
    (match MenuUpdates.name updates with
     | Some v => if truthyString v then Some v else None
     | None => None
     end)
    (match MenuUpdates.basePrice updates with
     | Some v => if truthyZ v then Some v else None
     | None => None
     end)
    (MenuUpdates.category updates)
    (match MenuUpdates.bundle updates with
     | Some (Some v) => Some v
     | Some None | None => None
     end).

Definition updateMenuItem (s : Store) (id : string) (updates : MenuUpdates.t)
  : Store * list MenuItemsUpdate :=
  if isRealtime s then
    let dbUpdates := dbUpdatesOf updates in
    (s, [MenuItemsUpdateEq dbUpdates id])
  else
    (setMenu s (map (fun item =>
                       if String.eqb (MenuItem.id item) id
                       then MenuUpdates.spread item updates else item)),
     []).

End UseStore.

(** ** components/CashierView.tsx *)

Module CashierView.

(** A cart line read as the [MenuItem] it extends. *)
Definition asMenuItem (item : CartItem.t) : MenuItem.t :=
  MenuItem.mk (CartItem.id item) (CartItem.name item) (CartItem.basePrice item)
              (CartItem.category item) (CartItem.image item)
              (CartItem.bundle item).

(** [{ ...item, quantity: 1 }] *)
Definition newLine (item : MenuItem.t) : CartItem.t :=
  CartItem.mk (MenuItem.id item) (MenuItem.name item) (MenuItem.basePrice item)
              (MenuItem.category item) (MenuItem.image item)
              (MenuItem.bundle item) 1 None None.

(** [{ ...i, quantity: q }] *)
Definition with_quantity (i : CartItem.t) (q : Z) : CartItem.t :=
  CartItem.mk (CartItem.id i) (CartItem.name i) (CartItem.basePrice i)
              (CartItem.category i) (CartItem.image i) (CartItem.bundle i)
              q (CartItem.note i) (CartItem.isPrepared i).

(** [{ ...item, note }] *)
Definition with_note (item : CartItem.t) (note : string) : CartItem.t :=
  CartItem.mk (CartItem.id item) (CartItem.name item) (CartItem.basePrice item)
              (CartItem.category item) (CartItem.image item)
              (CartItem.bundle item) (CartItem.quantity item) (Some note)
              (CartItem.isPrepared item).

(** The three cart updaters, each as the function it passes to [setCart]. *)
Definition addToCart (item : MenuItem.t) (prev : list CartItem.t) : list CartItem.t :=
  match find (fun i => String.eqb (CartItem.id i) (MenuItem.id item)) prev with
  | Some existing =>
      map (fun i => if String.eqb (CartItem.id i) (MenuItem.id item)
                    then with_quantity i (CartItem.quantity i + 1) else i) prev
  | None => prev ++ [newLine item]
  end.

Definition updateQuantity (itemId : string) (delta : Z)
                          (prev : list CartItem.t) : list CartItem.t :=
  filter (fun item => (0 <? CartItem.quantity item)%Z)
    (map (fun item =>
            if String.eqb (CartItem.id item) itemId
            then with_quantity item (Z.max 0 (CartItem.quantity item + delta))
            else item) prev).

Definition updateItemNote (itemId : string) (note : string)
                          (prev : list CartItem.t) : list CartItem.t :=
  map (fun item => if String.eqb (CartItem.id item) itemId
                   then with_note item note else item) prev.

Definition cartTotal (cart : list CartItem.t) : Z :=
  fold_left (fun sum item =>
               (sum + Utils.calculateItemTotal (asMenuItem item)
                                               (CartItem.quantity item))%Z)
            cart 0%Z.

(** The order data [handleConfirmOrder] passes to [onCreateOrder]; [None]
    when it returns early on an empty cart. *)
Definition handleConfirmOrder (cart : list CartItem.t)
                              (customerName globalNote : string)
                              (paymentStatus : PaymentStatus.t)
  : option OrderData.t :=
  if Nat.eqb (List.length cart) 0 then None
  else Some (OrderData.mk
               (if truthyString customerName then customerName else "Guest")
               cart (cartTotal cart) paymentStatus (Some globalNote)).

(** The two flags of a rendered cart line. *)
Definition isBundleActive (item : CartItem.t) : bool :=
  match CartItem.bundle item with
  | Some bundle =>
      BundleConfig.enabled bundle
      && (CartItem.quantity item
          >=? (if truthyZ (BundleConfig.buyQuantity bundle)
               then BundleConfig.buyQuantity bundle else 999))%Z
  | None => false
  end.

Definition showSuggestion (item : CartItem.t) : bool :=
  match CartItem.bundle item with
  | Some bundle =>
      BundleConfig.enabled bundle && negb (isBundleActive item)
      && (0 <? CartItem.quantity item)%Z
  | None => false
  end.

End CashierView.

(** ** components/ItemModal.tsx *)

Module ItemModal.

(** The form state [handleSubmit] reads. *)
Record Form := mkForm {
  name : string;
  basePrice : string;
  category : Category;
  bundleEnabled : bool;
  buyQuantity : string;
  bundlePrice : string;
  showPromoLabel : bool }.

(** [parseInt (x) || 0]; [parseInt] gives [None] for [NaN]. *)
Definition parseIntOr0 (parseInt : string -> option Z) (x : string) : Z :=
  match parseInt x with
  | Some n => if truthyZ n then n else 0%Z
  | None => 0%Z
  end.

(** The object [handleSubmit] hands to [onSave]. *)
Definition handleSubmit (parseInt : string -> option Z) (f : Form) : NewMenuItem.t :=
  let bundle :=
    BundleConfig.mk
      (bundleEnabled f)
      (if bundleEnabled f then parseIntOr0 parseInt (buyQuantity f) else 0%Z)
      (if bundleEnabled f then parseIntOr0 parseInt (bundlePrice f) else 0%Z)
      (if bundleEnabled f then showPromoLabel f else false) in
  NewMenuItem.mk (name f) (parseIntOr0 parseInt (basePrice f)) (category f)
                 None (Some bundle).

End ItemModal.

(** ** components/AdminDashboard.tsx *)

Module AdminDashboard.

Definition totalRevenue (orders : list Order.t) : Z :=
  fold_left (fun sum o => (sum + Order.total o)%Z)
            (filter (fun o => negb (OrderStatus.eqb (Order.status o)
                                                    OrderStatus.Cancelled))
                    orders)
            0%Z.

Definition pendingOrders (orders : list Order.t) : nat :=
  List.length
    (filter (fun o => OrderStatus.eqb (Order.status o) OrderStatus.Pending
                      || OrderStatus.eqb (Order.status o) OrderStatus.Preparing)
            orders).

Definition completedOrders (orders : list Order.t) : nat :=
  List.length
    (filter (fun o => OrderStatus.eqb (Order.status o) OrderStatus.Completed
                      || OrderStatus.eqb (Order.status o) OrderStatus.PickedUp)
            orders).

(** [OrderStatus | 'All'] *)
Inductive OrderFilter := All | Status (status : OrderStatus.t).

Definition filteredOrders (orderFilter : OrderFilter)
                          (orders : list Order.t) : list Order.t :=
  filter (fun order =>
            match orderFilter with
            | All => true
            | Status status => OrderStatus.eqb (Order.status order) status
            end) orders.

Definition filterTabs : list OrderFilter :=
  [All; Status OrderStatus.Pending; Status OrderStatus.Preparing;
   Status OrderStatus.Completed; Status OrderStatus.PickedUp;
   Status OrderStatus.Cancelled].

(** [confirmed] is the answer of [window.confirm]. *)
Definition handleCancelOrder (confirmed : bool) (s : UseStore.Store)
                             (orderId : string)
  : UseStore.Store * list Request :=
  if confirmed then UseStore.updateOrderStatus s orderId OrderStatus.Cancelled
  else (s, []).

Definition handleDeleteOrder (confirmed : bool) (s : UseStore.Store)
                             (orderId : string)
  : UseStore.Store * list Request :=
  if confirmed then UseStore.deleteOrder s orderId else (s, []).

End AdminDashboard.

(** ** components/OrderDetailPanel.tsx *)

Module OrderDetailPanel.

Definition totalItems (order : Order.t) : nat := List.length (Order.items order).

Definition preparedItems (order : Order.t) : nat :=
  List.length (filter (fun i => truthyFlag (CartItem.isPrepared i))
                      (Order.items order)).

Definition isAllPrepared (order : Order.t) : bool :=
  Nat.eqb (preparedItems order) (totalItems order)
  && Nat.ltb 0 (totalItems order).

Definition isPickedUp (order : Order.t) : bool :=
  OrderStatus.eqb (Order.status order) OrderStatus.PickedUp.

(** The checkbox handler of a line:
    [!isPickedUp && toggleOrderItemPrepared (order.id, item.id)]. *)
Definition onChange (s : UseStore.Store) (order : Order.t) (item : CartItem.t)
  : UseStore.Store * list Request :=
  if negb (isPickedUp order)
  then UseStore.toggleOrderItemPrepared s (Order.id order) (CartItem.id item)
  else (s, []).

End OrderDetailPanel.

(** ** components/DailyAnalytics.tsx

    The two readings of a timestamp come from the environment:
    [toDateString] is [new Date (x).toDateString ()] and [getHours] is
    [new Date (x).getHours ()], [None] for [NaN]. *)

Module DailyAnalytics.

Definition todayOrders (toDateString : string -> string) (today : string)
                       (orders : list Order.t) : list Order.t :=
  filter (fun o => String.eqb (toDateString (Order.createdAt o)) today) orders.

Record Stats := mkStats {
  totalOrders : nat;
  completedOrders : nat;
  pendingOrders : nat;
  revenue : Z }.

Definition isCompleted (o : Order.t) : bool :=
  OrderStatus.eqb (Order.status o) OrderStatus.Completed
  || OrderStatus.eqb (Order.status o) OrderStatus.PickedUp.

Definition stats (todayOrders : list Order.t) : Stats :=
  let completed := filter isCompleted todayOrders in
  let pending :=
    filter (fun o => OrderStatus.eqb (Order.status o) OrderStatus.Pending
                     || OrderStatus.eqb (Order.status o) OrderStatus.Preparing)
           todayOrders in
  let revenue := fold_left (fun sum o => (sum + Order.total o)%Z) completed 0%Z in
  mkStats (List.length todayOrders) (List.length completed)
          (List.length pending) revenue.

Record Hour := mkHour {
  hour : nat;
  label : string;
  hourRevenue : Z;
  hourOrders : nat }.

(** [Array.from ({ length: 24 }, (_, i) => ...)] *)
Definition emptyHours : list Hour :=
  map (fun i =>
         mkHour i (NilEmpty.string_of_uint (Nat.to_uint i) ++ ":00")%string
                0%Z 0)
      (seq 0 24).

(** One round of the [forEach]: [None] is the [TypeError] of reading a
    field of [hours[hour]] when that is [undefined]. *)
Definition countOrder (getHours : string -> option nat)
                      (hours : list Hour) (order : Order.t) : option (list Hour) :=
  match getHours (Order.createdAt order) with
  | None => None
  | Some h =>
      match nth_error hours h with
      | None => None
      | Some slot =>
          let counted :=
            mkHour (hour slot) (label slot) (hourRevenue slot)
                   (hourOrders slot + 1) in
          let credited :=
            if isCompleted order
            then mkHour (hour counted) (label counted)
                        (hourRevenue counted + Order.total order)%Z
                        (hourOrders counted)
            else counted in
          Some (firstn h hours ++ credited :: skipn (S h) hours)
      end
  end.

Fixpoint forEachOrder (getHours : string -> option nat)
                      (todayOrders : list Order.t) (hours : list Hour)
  : option (list Hour) :=
  match todayOrders with
  | [] => Some hours
  | order :: rest =>
      match countOrder getHours hours order with
      | Some hours' => forEachOrder getHours rest hours'
      | None => None
      end
  end.

Definition chartData (getHours : string -> option nat)
                     (todayOrders : list Order.t) : option (list Hour) :=
  forEachOrder getHours todayOrders emptyHours.

End DailyAnalytics.

(** ** Sample data *)

(** [DEFAULT_MENU] of useStore.tsx. *)
Definition DEFAULT_MENU : list MenuItem.t :=
  [ MenuItem.mk "1" "Espresso" 25000 Coffee None
      (Some (BundleConfig.mk false 0 0 false));
    MenuItem.mk "2" "Iced Latte" 35000 Coffee None
      (Some (BundleConfig.mk true 2 60000 true));
    MenuItem.mk "3" "Croissant" 20000 Food None
      (Some (BundleConfig.mk true 3 50000 true));
    MenuItem.mk "4" "Green Tea" 30000 Tea None
      (Some (BundleConfig.mk false 0 0 false)) ].

Definition icedLatte : MenuItem.t :=
  nth 1 DEFAULT_MENU (MenuItem.mk "" "" 0 Other None None).

(** An Iced Latte whose bundle was switched on in the item form with the
    bundle price left blank ([parseInt ('') || 0]). *)
Definition latteBlankBundlePrice : MenuItem.t :=
  MenuItem.mk "2" "Iced Latte" 35000 Coffee None
    (Some (BundleConfig.mk true 2 0 true)).

(** A cart of three lines, as the cashier view submits it. *)
Definition cartLine (m : MenuItem.t) (quantity : Z) : CartItem.t :=
  CartItem.mk (MenuItem.id m) (MenuItem.name m) (MenuItem.basePrice m)
              (MenuItem.category m) (MenuItem.image m) (MenuItem.bundle m)
              quantity None None.

Definition sampleCart : list CartItem.t :=
  map (fun m => cartLine m 1) (firstn 3 DEFAULT_MENU).

Definition paidCheckout : OrderData.t :=
  OrderData.mk "Guest" sampleCart 80000 PaymentStatus.Paid None.

Definition sampleOrder (status : OrderStatus.t) : Order.t :=
  Order.mk "k3x9q2m1a" "Guest"
           (map (fun item => CartItem.with_isPrepared item false) sampleCart)
           80000 status PaymentStatus.Unpaid "2024-05-01T08:00:00.000Z" None.

Definition emptyOrder : Order.t :=
  Order.mk "e0e0e0e0e" "Guest" [] 0 OrderStatus.Pending PaymentStatus.Unpaid
           "2024-05-01T08:00:00.000Z" None.

Definition localStore (orders : list Order.t) : UseStore.Store :=
  UseStore.mkStore DEFAULT_MENU orders false.

Definition realtimeStore (orders : list Order.t) : UseStore.Store :=
  UseStore.mkStore DEFAULT_MENU orders true.

(** A backend that stores the document it is given. *)
Definition storingBackend (uuid now : string) (d : OrdersInsert.t)
  : option DbOrder.t :=
  Some (DbOrder.mk uuid (OrdersInsert.customer_name d) (OrdersInsert.items d)
                   (OrdersInsert.total d) (OrdersInsert.status d)
                   (OrdersInsert.payment_status d) now (OrdersInsert.note d)).

(** A new menu item that carries an image reference. *)
Definition matchaWithImage : NewMenuItem.t :=
  NewMenuItem.mk "Matcha" 32000 Tea (Some "matcha.png"%string) None.

(** The backend rows of [sampleOrder] and of the Iced Latte. *)
Definition sampleOrderRow (status : OrderStatus.t) : DbOrder.t :=
  DbOrder.mk "k3x9q2m1a" "Guest"
             (map (fun item => CartItem.with_isPrepared item false) sampleCart)
             80000 status PaymentStatus.Unpaid "2024-05-01T08:00:00.000Z" None.

Definition icedLatteRow : DbMenuItem.t :=
  DbMenuItem.mk "2" "Iced Latte" 35000 Coffee None
                (Some (BundleConfig.mk true 2 60000 true)).

(** ** Vocabulary of the statements *)

(** The two states the derivation never leaves. *)
Definition terminal (status : OrderStatus.t) : Prop :=
  status = OrderStatus.Cancelled \/ status = OrderStatus.PickedUp.

(** What a toggle on [order] left behind: in realtime mode one [update]
    call carrying [items'] and [status'] and an untouched state; in local
    mode no call, and [order] stored under its id with exactly those two
    fields replaced. *)
Definition persisted (s : UseStore.Store) (orderId : string) (order : Order.t)
                     (result : UseStore.Store * list Request)
                     (items' : list CartItem.t) (status' : OrderStatus.t) : Prop :=
  if UseStore.isRealtime s then
    result = (s, [OrdersUpdateItems orderId items' status'])
  else
    snd result = []
    /\ UseStore.menu (fst result) = UseStore.menu s
    /\ UseStore.isRealtime (fst result) = false
    /\ UseStore.findOrder orderId (UseStore.orders (fst result))
       = Some (UseStore.withItemsStatus order items' status').

(** Serialise as [addMenuItem] does, store, and map the row back. *)
Definition roundTrip (uuid : string) (item : NewMenuItem.t) : MenuItem.t :=
  UseStore.mapDbMenuItem (MenuInsert.row uuid (UseStore.dbItemOf item)).

(** The stored order after one toggle in local mode. *)
Definition toggleStep (order : Order.t) (itemId : string) : Order.t :=
  UseStore.withItemsStatus order (UseStore.toggledItems order itemId)
    (UseStore.derivedStatus order (UseStore.toggledItems order itemId)).

(** What one toggle does to one line, and a run of toggles to it. *)
Definition flipLine (itemId : string) (item : CartItem.t) : CartItem.t :=
  if String.eqb (CartItem.id item) itemId
  then CartItem.with_isPrepared item
         (negb (truthyFlag (CartItem.isPrepared item)))
  else item.

Definition flipLines (itemIds : list string) (item : CartItem.t) : CartItem.t :=
  fold_left (fun i itemId => flipLine itemId i) itemIds item.

(** The status the count rule gives a list of lines. *)
Definition countStatus (items : list CartItem.t) : OrderStatus.t :=
  if Nat.eqb (UseStore.preparedCountOf items) 0 then OrderStatus.Pending
  else if Nat.eqb (UseStore.preparedCountOf items) (List.length items)
       then OrderStatus.Completed
       else OrderStatus.Preparing.

(** Neither of the two terminal states. *)
Definition live (status : OrderStatus.t) : Prop :=
  status <> OrderStatus.Cancelled /\ status <> OrderStatus.PickedUp.

(** The backend answered an insert with a row holding the document. *)
Definition storesDocument (row : DbOrder.t) (doc : OrdersInsert.t) : Prop :=
  DbOrder.customer_name row = OrdersInsert.customer_name doc
  /\ DbOrder.items row = OrdersInsert.items doc
  /\ DbOrder.total row = OrdersInsert.total doc
  /\ DbOrder.status row = OrdersInsert.status doc
  /\ DbOrder.payment_status row = OrdersInsert.payment_status doc
  /\ DbOrder.note row = OrdersInsert.note doc.

(** What an order adds to the day's revenue. *)
Definition credit (order : Order.t) : Z :=
  if DailyAnalytics.isCompleted order then Order.total order else 0%Z.

(** The events of a cashier session on the cart, and a run of them. *)
Inductive CartEvent :=
| AddToCart (item : MenuItem.t)
| UpdateQuantity (itemId : string) (delta : Z)
| UpdateItemNote (itemId : string) (note : string).

Definition cartStep (cart : list CartItem.t) (e : CartEvent) : list CartItem.t :=
  match e with
  | AddToCart item => CashierView.addToCart item cart
  | UpdateQuantity itemId delta => CashierView.updateQuantity itemId delta cart
  | UpdateItemNote itemId note => CashierView.updateItemNote itemId note cart
  end.

Definition runCart (events : list CartEvent) : list CartItem.t :=
  fold_left cartStep events [].

(** One line per item id, each with a positive quantity. *)
Definition cartWellFormed (cart : list CartItem.t) : Prop :=
  NoDup (map CartItem.id cart)
  /\ Forall (fun i => (0 < CartItem.quantity i)%Z) cart.

(** Column sums of the hourly chart. *)
Definition chartOrders (hours : list DailyAnalytics.Hour) : nat :=
  fold_right (fun h acc => DailyAnalytics.hourOrders h + acc) 0 hours.

Definition chartRevenue (hours : list DailyAnalytics.Hour) : Z :=
  fold_right (fun h acc => (DailyAnalytics.hourRevenue h + acc)%Z) 0%Z hours.

(** * Pricing *)

Section Pricing.
Local Open Scope Z_scope.
Import Utils.

Lemma truthyZ_false (n : Z) : truthyZ n = false <-> n = 0.
Proof.
  unfold truthyZ. destruct (Z.eqb_spec n 0); simpl; split; congruence.
Qed.

Lemma truthyZ_true (n : Z) : truthyZ n = true <-> n <> 0.
Proof.
  unfold truthyZ. destruct (Z.eqb_spec n 0); simpl; split; congruence.
Qed.

(** The plain branch: no bundle object at all. *)
Lemma calculateItemTotal_no_bundle (item : MenuItem.t) (quantity : Z) :
  MenuItem.bundle item = None ->
  calculateItemTotal item quantity = MenuItem.basePrice item * quantity.
Proof. intros H. unfold calculateItemTotal. now rewrite H. Qed.

(** The plain branch: a bundle object that the guard rejects. *)
Lemma calculateItemTotal_inert (item : MenuItem.t) (b : BundleConfig.t) (quantity : Z) :
  MenuItem.bundle item = Some b ->
  BundleConfig.enabled b = false \/ BundleConfig.buyQuantity b = 0
    \/ BundleConfig.bundlePrice b = 0 ->
  calculateItemTotal item quantity = MenuItem.basePrice item * quantity.
Proof.
  intros Hb Hguard. unfold calculateItemTotal. rewrite Hb.
  destruct Hguard as [He | [Hq | Hp]].
  - now rewrite He.
  - apply truthyZ_false in Hq. rewrite Hq.
    now destruct (BundleConfig.enabled b).
  - apply truthyZ_false in Hp. rewrite Hp.
    destruct (BundleConfig.enabled b); simpl; [| reflexivity].
    now rewrite orb_true_r.
Qed.

(** The bundle branch. *)
Lemma calculateItemTotal_bundle (item : MenuItem.t) (b : BundleConfig.t) (quantity : Z) :
  MenuItem.bundle item = Some b ->
  BundleConfig.enabled b = true ->
  BundleConfig.buyQuantity b <> 0 ->
  BundleConfig.bundlePrice b <> 0 ->
  calculateItemTotal item quantity =
    quantity / BundleConfig.buyQuantity b * BundleConfig.bundlePrice b
    + Z.rem quantity (BundleConfig.buyQuantity b) * MenuItem.basePrice item.
Proof.
  intros Hb He Hq Hp. unfold calculateItemTotal. rewrite Hb, He.
  apply truthyZ_true in Hq. apply truthyZ_true in Hp.
  now rewrite Hq, Hp.
Qed.

(** C2.  For a quantity [>= 0]: with no bundle, or a bundle whose [enabled]
    flag is false, or whose [buyQuantity] or [bundlePrice] is [0],
    [calculateItemTotal] is [basePrice * quantity]; otherwise it is
    [floor (quantity / buyQuantity) * bundlePrice
     + (quantity % buyQuantity) * basePrice], the remainder being the usual
    [mod] for a positive [buyQuantity].  The Iced Latte (35000, buy 2 for
    60000) costs 60000, 95000 and 155000 at quantities 2, 3 and 5. *)
Theorem calculateItemTotal_contract (item : MenuItem.t) (quantity : Z) :
  0 <= quantity ->
  (MenuItem.bundle item = None ->
     calculateItemTotal item quantity = MenuItem.basePrice item * quantity)
  /\ (forall b, MenuItem.bundle item = Some b ->
        (BundleConfig.enabled b = false \/ BundleConfig.buyQuantity b = 0
           \/ BundleConfig.bundlePrice b = 0 ->
         calculateItemTotal item quantity = MenuItem.basePrice item * quantity)
        /\ (BundleConfig.enabled b = true ->
            BundleConfig.buyQuantity b <> 0 ->
            BundleConfig.bundlePrice b <> 0 ->
            calculateItemTotal item quantity =
              quantity / BundleConfig.buyQuantity b * BundleConfig.bundlePrice b
              + Z.rem quantity (BundleConfig.buyQuantity b)
                * MenuItem.basePrice item
            /\ (0 < BundleConfig.buyQuantity b ->
                Z.rem quantity (BundleConfig.buyQuantity b)
                = quantity mod BundleConfig.buyQuantity b)))
  /\ calculateItemTotal icedLatte 2 = 60000
  /\ calculateItemTotal icedLatte 3 = 95000
  /\ calculateItemTotal icedLatte 5 = 155000.
Proof.
  intros Hq. split; [| split].
  - apply calculateItemTotal_no_bundle.
  - intros b Hb. split.
    + now apply calculateItemTotal_inert.
    + intros He Hn Hp. split.
      * now apply calculateItemTotal_bundle.
      * intros Hpos. apply Z.rem_mod_nonneg; lia.
  - repeat split; reflexivity.
Qed.

Lemma calculateItemTotal_contract_witness :
  0 <= 3 /\ calculateItemTotal icedLatte 3 = 95000.
Proof.
  split; [lia |].
  exact (proj1 (proj2 (proj2 (proj2 (calculateItemTotal_contract icedLatte 3
                                       ltac:(lia)))))).
Defined.

(** C7, as stated, fails: an enabled bundle with [bundlePrice = 0] is
    rejected by the guard, and one bundle's worth of Iced Latte is charged
    at the unit price. *)
Lemma whole_bundles_counterexample :
  ~ (forall (item : MenuItem.t) (b : BundleConfig.t) (k : Z),
       MenuItem.bundle item = Some b ->
       BundleConfig.enabled b = true ->
       0 <= k ->
       calculateItemTotal item (k * BundleConfig.buyQuantity b)
       = k * BundleConfig.bundlePrice b).
Proof.
  intros H.
  specialize (H latteBlankBundlePrice (BundleConfig.mk true 2 0 true) 1
                eq_refl eq_refl ltac:(lia)).
  vm_compute in H. discriminate H.
Qed.

(** C7, amended.  For an enabled bundle with [buyQuantity = b] and
    [bundlePrice = p], both non-zero, and every [k >= 0],
    [calculateItemTotal item (k * b) = k * p]. *)
Theorem calculateItemTotal_whole_bundles
        (item : MenuItem.t) (b : BundleConfig.t) (k : Z) :
  MenuItem.bundle item = Some b ->
  BundleConfig.enabled b = true ->
  BundleConfig.buyQuantity b <> 0 ->
  BundleConfig.bundlePrice b <> 0 ->
  0 <= k ->
  calculateItemTotal item (k * BundleConfig.buyQuantity b)
  = k * BundleConfig.bundlePrice b.
Proof.
  intros Hb He Hq Hp _.
  rewrite (calculateItemTotal_bundle item b _ Hb He Hq Hp).
  rewrite Z.div_mul by assumption.
  rewrite Z.rem_mul by assumption.
  lia.
Qed.

Lemma calculateItemTotal_whole_bundles_witness :
  calculateItemTotal icedLatte (4 * 2) = 4 * 60000.
Proof.
  apply (calculateItemTotal_whole_bundles icedLatte
           (BundleConfig.mk true 2 60000 true) 4);
    [reflexivity | reflexivity | simpl; lia | simpl; lia | lia].
Defined.

End Pricing.

(** * Order lifecycle *)

Section Lifecycle.
Import UseStore.

Lemma status_eqb_eq (a b : OrderStatus.t) : OrderStatus.eqb a b = true <-> a = b.
Proof. destruct a, b; simpl; split; congruence. Qed.

Lemma status_eqb_neq (a b : OrderStatus.t) : OrderStatus.eqb a b = false <-> a <> b.
Proof. destruct a, b; simpl; split; congruence. Qed.

Lemma findOrder_id (orderId : string) (l : list Order.t) (order : Order.t) :
  findOrder orderId l = Some order -> Order.id order = orderId.
Proof.
  unfold findOrder. intros H. apply find_some in H.
  now apply String.eqb_eq.
Qed.

(** Rewriting the orders under one id leaves the first of them first. *)
Lemma findOrder_map_same (orderId : string) (f : Order.t -> Order.t)
      (l : list Order.t) (order : Order.t) :
  (forall o, Order.id (f o) = Order.id o) ->
  findOrder orderId l = Some order ->
  findOrder orderId
    (map (fun o => if String.eqb (Order.id o) orderId then f o else o) l)
  = Some (f order).
Proof.
  intros Hid. unfold findOrder. induction l as [| o l IH]; simpl; [discriminate |].
  destruct (String.eqb (Order.id o) orderId) eqn:E.
  - intros [= <-]. simpl. now rewrite Hid, E.
  - intros H. simpl. rewrite E. auto.
Qed.

(** ... and is invisible under any other id. *)
Lemma findOrder_map_other (orderId other : string) (f : Order.t -> Order.t)
      (l : list Order.t) :
  (forall o, Order.id (f o) = Order.id o) ->
  other <> orderId ->
  findOrder orderId
    (map (fun o => if String.eqb (Order.id o) other then f o else o) l)
  = findOrder orderId l.
Proof.
  intros Hid Hne. unfold findOrder. induction l as [| o l IH]; simpl; [reflexivity |].
  destruct (String.eqb (Order.id o) other) eqn:E.
  - apply String.eqb_eq in E.
    assert (Hno : String.eqb (Order.id o) orderId = false)
      by (apply String.eqb_neq; congruence).
    now rewrite Hid, Hno.
  - now rewrite IH.
Qed.

Lemma derivedStatus_terminal (order : Order.t) (items : list CartItem.t) :
  terminal (Order.status order) ->
  derivedStatus order items = Order.status order.
Proof.
  unfold derivedStatus. intros [H | H]; rewrite H; reflexivity.
Qed.

Lemma derivedStatus_live (order : Order.t) (items : list CartItem.t) :
  Order.status order <> OrderStatus.Cancelled ->
  Order.status order <> OrderStatus.PickedUp ->
  derivedStatus order items =
    if Nat.eqb (preparedCountOf items) 0 then OrderStatus.Pending
    else if Nat.eqb (preparedCountOf items) (List.length items)
         then OrderStatus.Completed
         else OrderStatus.Preparing.
Proof.
  intros Hc Hp. unfold derivedStatus.
  apply status_eqb_neq in Hc. apply status_eqb_neq in Hp.
  now rewrite Hc, Hp.
Qed.

(** What one toggle does to an order the store holds. *)
Lemma toggle_persisted (s : Store) (orderId itemId : string) (order : Order.t) :
  findOrder orderId (orders s) = Some order ->
  persisted s orderId order (toggleOrderItemPrepared s orderId itemId)
            (toggledItems order itemId)
            (derivedStatus order (toggledItems order itemId)).
Proof.
  intros Hfind. unfold persisted, toggleOrderItemPrepared. rewrite Hfind.
  destruct (isRealtime s) eqn:Hrt; [reflexivity |].
  simpl. repeat split; [assumption |].
  now apply (findOrder_map_same orderId
               (fun o => withItemsStatus o (toggledItems order itemId)
                           (derivedStatus order (toggledItems order itemId)))).
Qed.

Lemma toggle_not_found (s : Store) (orderId itemId : string) :
  findOrder orderId (orders s) = None ->
  toggleOrderItemPrepared s orderId itemId = (s, []).
Proof. intros H. unfold toggleOrderItemPrepared. now rewrite H. Qed.

Lemma persisted_unique (s : Store) (orderId : string) (order : Order.t)
      (result : Store * list Request)
      (items1 items2 : list CartItem.t) (st1 st2 : OrderStatus.t) :
  persisted s orderId order result items1 st1 ->
  persisted s orderId order result items2 st2 ->
  items1 = items2 /\ st1 = st2.
Proof.
  unfold persisted. destruct (isRealtime s).
  - intros -> [=]. auto.
  - intros (_ & _ & _ & H1) (_ & _ & _ & H2).
    rewrite H1 in H2. injection H2. auto.
Qed.

Lemma toggledItems_length (order : Order.t) (itemId : string) :
  List.length (toggledItems order itemId) = List.length (Order.items order).
Proof. unfold toggledItems. apply length_map. Qed.

Lemma toggledItems_nth (order : Order.t) (itemId : string) (n : nat) (item : CartItem.t) :
  nth_error (Order.items order) n = Some item ->
  nth_error (toggledItems order itemId) n =
    Some (if String.eqb (CartItem.id item) itemId
          then CartItem.with_isPrepared item
                 (negb (truthyFlag (CartItem.isPrepared item)))
          else item).
Proof.
  intros H. unfold toggledItems. rewrite nth_error_map, H. reflexivity.
Qed.

(** What a local toggle leaves in the store, field by field. *)
Lemma toggle_stored (s : Store) (orderId itemId : string) (order : Order.t) :
  isRealtime s = false ->
  findOrder orderId (orders s) = Some order ->
  exists stored,
    findOrder orderId (orders (fst (toggleOrderItemPrepared s orderId itemId)))
    = Some stored
    /\ Order.items stored = toggledItems order itemId
    /\ Order.status stored = derivedStatus order (toggledItems order itemId)
    /\ Order.id stored = Order.id order
    /\ Order.customerName stored = Order.customerName order
    /\ Order.total stored = Order.total order
    /\ Order.paymentStatus stored = Order.paymentStatus order
    /\ Order.createdAt stored = Order.createdAt order
    /\ Order.note stored = Order.note order.
Proof.
  intros Hrt Hfind.
  pose proof (toggle_persisted s orderId itemId order Hfind) as Hper.
  unfold persisted in Hper. rewrite Hrt in Hper.
  destruct Hper as (_ & _ & _ & Hfound).
  eexists. split; [exact Hfound |].
  repeat split.
Qed.

Lemma toggle_sent (s : Store) (orderId itemId : string) (order : Order.t) :
  isRealtime s = true ->
  findOrder orderId (orders s) = Some order ->
  toggleOrderItemPrepared s orderId itemId
  = (s, [OrdersUpdateItems orderId (toggledItems order itemId)
           (derivedStatus order (toggledItems order itemId))]).
Proof.
  intros Hrt Hfind. unfold toggleOrderItemPrepared. now rewrite Hfind, Hrt.
Qed.

(** C3.  Toggling an item of an order that is neither Cancelled nor
    Picked Up stores the toggled items together with a status read off
    their counts: Pending when no item is prepared, Preparing when some but
    not all are, Completed when all of a non-empty list are.  In local mode
    the order found under the id afterwards has these items and this
    status; in realtime mode they are the items and status of the one
    update sent. *)
Theorem toggle_derives_status (s : Store) (orderId itemId : string) (order : Order.t) :
  findOrder orderId (orders s) = Some order ->
  Order.status order <> OrderStatus.Cancelled ->
  Order.status order <> OrderStatus.PickedUp ->
  exists newStatus,
    persisted s orderId order (toggleOrderItemPrepared s orderId itemId)
              (toggledItems order itemId) newStatus
    /\ (isRealtime s = false ->
        exists stored,
          findOrder orderId
            (orders (fst (toggleOrderItemPrepared s orderId itemId)))
          = Some stored
          /\ Order.items stored = toggledItems order itemId
          /\ Order.status stored = newStatus)
    /\ (isRealtime s = true ->
        toggleOrderItemPrepared s orderId itemId
        = (s, [OrdersUpdateItems orderId (toggledItems order itemId) newStatus]))
    /\ (preparedCountOf (toggledItems order itemId) = 0 ->
        newStatus = OrderStatus.Pending)
    /\ (0 < preparedCountOf (toggledItems order itemId)
          < List.length (toggledItems order itemId) ->
        newStatus = OrderStatus.Preparing)
    /\ (preparedCountOf (toggledItems order itemId)
          = List.length (toggledItems order itemId) ->
        0 < List.length (toggledItems order itemId) ->
        newStatus = OrderStatus.Completed).
Proof.
  intros Hfind Hc Hp.
  exists (derivedStatus order (toggledItems order itemId)).
  split; [now apply toggle_persisted |].
  split.
  { intros Hrt.
    destruct (toggle_stored s orderId itemId order Hrt Hfind)
      as (stored & Hfound & Hitems & Hstatus & _).
    exists stored. repeat split; assumption. }
  split; [intros Hrt; now apply toggle_sent |].
  rewrite (derivedStatus_live order _ Hc Hp).
  set (prepared := preparedCountOf (toggledItems order itemId)).
  set (total := List.length (toggledItems order itemId)).
  destruct (Nat.eqb_spec prepared 0) as [Hz | Hz];
    [| destruct (Nat.eqb_spec prepared total) as [Ht | Ht]];
    repeat split; intros; (reflexivity || lia).
Qed.

Lemma toggle_derives_status_witness :
  exists stored,
    findOrder "k3x9q2m1a"
      (orders (fst (toggleOrderItemPrepared
                      (localStore [sampleOrder OrderStatus.Pending])
                      "k3x9q2m1a" "2")))
    = Some stored
    /\ Order.items stored = toggledItems (sampleOrder OrderStatus.Pending) "2"
    /\ Order.status stored = OrderStatus.Preparing.
Proof.
  destruct (toggle_derives_status
              (localStore [sampleOrder OrderStatus.Pending]) "k3x9q2m1a" "2"
              (sampleOrder OrderStatus.Pending) eq_refl
              ltac:(discriminate) ltac:(discriminate))
    as (st & _ & Hlocal & _ & _ & Hmid & _).
  destruct (Hlocal eq_refl) as (stored & Hfound & Hitems & Hstatus).
  exists stored. split; [exact Hfound |]. split; [exact Hitems |].
  rewrite Hstatus. apply Hmid. vm_compute. split; constructor. constructor.
Defined.

(** The walk of the spec: three lines, none prepared; one toggle gives
    Preparing, the other two give Completed. *)
Example lifecycle_three_items :
  let s0 := localStore [sampleOrder OrderStatus.Pending] in
  let s1 := fst (toggleOrderItemPrepared s0 "k3x9q2m1a" "1") in
  let s3 := fst (toggleAll s1 [("k3x9q2m1a", "2"); ("k3x9q2m1a", "3")]%string) in
  option_map Order.status (findOrder "k3x9q2m1a" (orders s1))
    = Some OrderStatus.Preparing
  /\ option_map Order.status (findOrder "k3x9q2m1a" (orders s3))
    = Some OrderStatus.Completed.
Proof. split; reflexivity. Qed.

(** One toggle, on any order and item, leaves a terminal order's status. *)
Lemma toggle_keeps_terminal (s : Store) (orderId : string) (order : Order.t)
      (oid iid : string) :
  findOrder orderId (orders s) = Some order ->
  terminal (Order.status order) ->
  (exists order',
      findOrder orderId (orders (fst (toggleOrderItemPrepared s oid iid)))
      = Some order'
      /\ Order.status order' = Order.status order)
  /\ (forall items st,
        In (OrdersUpdateItems orderId items st)
           (snd (toggleOrderItemPrepared s oid iid)) ->
        st = Order.status order).
Proof.
  intros Hfind Hterm. unfold toggleOrderItemPrepared.
  destruct (findOrder oid (orders s)) as [found |] eqn:Hfound; simpl.
  2: { split; [eauto | intros ? ? []]. }
  destruct (isRealtime s); simpl.
  - split; [eauto |].
    intros items st [[= -> _ <-] | []].
    rewrite Hfind in Hfound. injection Hfound as <-.
    now apply derivedStatus_terminal.
  - split; [| intros ? ? []].
    destruct (string_dec oid orderId) as [-> | Hne].
    + rewrite Hfind in Hfound. injection Hfound as <-.
      eexists. split.
      * apply (findOrder_map_same orderId
                 (fun o => withItemsStatus o _ _) (orders s) order);
          [reflexivity | assumption].
      * simpl. now apply derivedStatus_terminal.
    + exists order. split; [| reflexivity].
      rewrite <- Hfind.
      now apply (findOrder_map_other orderId oid
                   (fun o => withItemsStatus o _ _)).
Qed.

(** C4.  Cancelled and Picked Up absorb item toggles: after any run of
    toggle events, on any orders and items, the order the store holds under
    that id still has its status, and every update sent for it carries
    that status. *)
Theorem terminal_absorbing (events : list (string * string)) (s : Store)
        (orderId : string) (order : Order.t) :
  findOrder orderId (orders s) = Some order ->
  terminal (Order.status order) ->
  (exists order',
      findOrder orderId (orders (fst (toggleAll s events))) = Some order'
      /\ Order.status order' = Order.status order)
  /\ (forall items st,
        In (OrdersUpdateItems orderId items st) (snd (toggleAll s events)) ->
        st = Order.status order).
Proof.
  revert s order.
  induction events as [| [oid iid] rest IH]; intros s order Hfind Hterm; simpl.
  - split; [eauto | intros ? ? []].
  - destruct (toggle_keeps_terminal s orderId order oid iid Hfind Hterm)
      as [(order1 & Hfind1 & Hst1) Hsent1].
    destruct (toggleOrderItemPrepared s oid iid) as [s1 sent1]; simpl in *.
    assert (Hterm1 : terminal (Order.status order1)) by now rewrite Hst1.
    destruct (IH s1 order1 Hfind1 Hterm1) as [(order2 & Hfind2 & Hst2) Hsent2].
    destruct (toggleAll s1 rest) as [s2 sent2]; simpl in *.
    split.
    + exists order2. split; [assumption | congruence].
    + intros items st Hin. apply in_app_or in Hin as [Hin | Hin].
      * eauto.
      * rewrite <- Hst1. eauto.
Qed.

Lemma terminal_absorbing_witness :
  exists order',
    findOrder "k3x9q2m1a"
      (orders (fst (toggleAll (localStore [sampleOrder OrderStatus.PickedUp])
                      [("k3x9q2m1a", "1"); ("k3x9q2m1a", "2");
                       ("k3x9q2m1a", "1")]%string)))
    = Some order'
    /\ Order.status order' = OrderStatus.PickedUp.
Proof.
  exact (proj1 (terminal_absorbing
                  [("k3x9q2m1a", "1"); ("k3x9q2m1a", "2");
                   ("k3x9q2m1a", "1")]%string
                  (localStore [sampleOrder OrderStatus.PickedUp])
                  "k3x9q2m1a" (sampleOrder OrderStatus.PickedUp)
                  eq_refl (or_intror eq_refl))).
Defined.

(** C8.  Toggling on an order with no lines, neither Cancelled nor Picked
    Up, stores the empty list with status Pending, and nothing else: the
    Completed branch is not reached. *)
Theorem toggle_empty_order_pending (s : Store) (orderId itemId : string)
        (order : Order.t) :
  findOrder orderId (orders s) = Some order ->
  Order.items order = [] ->
  Order.status order <> OrderStatus.Cancelled ->
  Order.status order <> OrderStatus.PickedUp ->
  persisted s orderId order (toggleOrderItemPrepared s orderId itemId)
            [] OrderStatus.Pending
  /\ (forall items' status',
        persisted s orderId order (toggleOrderItemPrepared s orderId itemId)
                  items' status' ->
        items' = [] /\ status' = OrderStatus.Pending
        /\ status' <> OrderStatus.Completed).
Proof.
  intros Hfind Hempty Hc Hp.
  pose proof (toggle_persisted s orderId itemId order Hfind) as H.
  assert (Hitems : toggledItems order itemId = [])
    by (unfold toggledItems; now rewrite Hempty).
  rewrite Hitems in H.
  rewrite (derivedStatus_live order [] Hc Hp) in H. simpl in H.
  split; [exact H |].
  intros items' status' H'.
  destruct (persisted_unique _ _ _ _ _ _ _ _ H' H) as [-> ->].
  repeat split. discriminate.
Qed.

Lemma toggle_empty_order_pending_witness :
  persisted (realtimeStore [emptyOrder]) "e0e0e0e0e" emptyOrder
            (toggleOrderItemPrepared (realtimeStore [emptyOrder]) "e0e0e0e0e" "1")
            [] OrderStatus.Pending.
Proof.
  exact (proj1 (toggle_empty_order_pending
                  (realtimeStore [emptyOrder]) "e0e0e0e0e" "1" emptyOrder
                  eq_refl eq_refl ltac:(discriminate) ltac:(discriminate))).
Defined.

(** C10.  On a Cancelled or Picked Up order, a toggle on an item id the
    order has still stores the toggled items: the lines under that id get
    the opposite prepared flag, every other line and every other field of
    the order is kept, and the status is the one field of the update that
    does not move.  In local mode the order found under the id afterwards
    has the toggled items and the old status; in realtime mode the one
    update sent carries them. *)
Theorem toggle_terminal_flips_items (s : Store) (orderId itemId : string)
        (order : Order.t) :
  findOrder orderId (orders s) = Some order ->
  terminal (Order.status order) ->
  (exists item, In item (Order.items order) /\ CartItem.id item = itemId) ->
  persisted s orderId order (toggleOrderItemPrepared s orderId itemId)
            (toggledItems order itemId) (Order.status order)
  /\ (isRealtime s = false ->
      exists stored,
        findOrder orderId
          (orders (fst (toggleOrderItemPrepared s orderId itemId)))
        = Some stored
        /\ Order.items stored = toggledItems order itemId
        /\ Order.status stored = Order.status order
        /\ Order.id stored = Order.id order
        /\ Order.customerName stored = Order.customerName order
        /\ Order.total stored = Order.total order
        /\ Order.paymentStatus stored = Order.paymentStatus order
        /\ Order.createdAt stored = Order.createdAt order
        /\ Order.note stored = Order.note order)
  /\ (isRealtime s = true ->
      toggleOrderItemPrepared s orderId itemId
      = (s, [OrdersUpdateItems orderId (toggledItems order itemId)
               (Order.status order)]))
  /\ List.length (toggledItems order itemId) = List.length (Order.items order)
  /\ (forall n item,
        nth_error (Order.items order) n = Some item ->
        exists item',
          nth_error (toggledItems order itemId) n = Some item'
          /\ (CartItem.id item = itemId ->
              item' = CartItem.with_isPrepared item
                        (negb (truthyFlag (CartItem.isPrepared item)))
              /\ truthyFlag (CartItem.isPrepared item')
                 = negb (truthyFlag (CartItem.isPrepared item)))
          /\ (CartItem.id item <> itemId -> item' = item))
  /\ toggledItems order itemId <> Order.items order.
Proof.
  intros Hfind Hterm (item & Hin & Hid).
  assert (Hnth : forall n it,
             nth_error (Order.items order) n = Some it ->
             exists it',
               nth_error (toggledItems order itemId) n = Some it'
               /\ (CartItem.id it = itemId ->
                   it' = CartItem.with_isPrepared it
                           (negb (truthyFlag (CartItem.isPrepared it)))
                   /\ truthyFlag (CartItem.isPrepared it')
                      = negb (truthyFlag (CartItem.isPrepared it)))
               /\ (CartItem.id it <> itemId -> it' = it)).
  { intros n it Hn. eexists. split; [apply toggledItems_nth; exact Hn |].
    destruct (String.eqb_spec (CartItem.id it) itemId) as [E | E]; split;
      intros; try contradiction; try reflexivity.
    split; [reflexivity |].
    simpl. now destruct (truthyFlag (CartItem.isPrepared it)). }
  split; [| split; [| split; [| split; [| split]]]].
  - pose proof (toggle_persisted s orderId itemId order Hfind) as H.
    now rewrite (derivedStatus_terminal order _ Hterm) in H.
  - intros Hrt.
    destruct (toggle_stored s orderId itemId order Hrt Hfind)
      as (stored & Hfound & Hitems & Hstatus & Hrest).
    exists stored. split; [exact Hfound |]. split; [exact Hitems |].
    split; [| exact Hrest].
    rewrite Hstatus. now apply derivedStatus_terminal.
  - intros Hrt. rewrite (toggle_sent s orderId itemId order Hrt Hfind).
    now rewrite (derivedStatus_terminal order _ Hterm).
  - apply toggledItems_length.
  - exact Hnth.
  - intros Heq. apply In_nth_error in Hin as [n Hn].
    destruct (Hnth n item Hn) as (item' & Hn' & Hflip & _).
    destruct (Hflip Hid) as [_ Hflag].
    rewrite Heq, Hn in Hn'. injection Hn' as <-.
    now destruct (truthyFlag (CartItem.isPrepared item)).
Qed.

Lemma toggle_terminal_flips_items_witness :
  exists stored,
    findOrder "k3x9q2m1a"
      (orders (fst (toggleOrderItemPrepared
                      (localStore [sampleOrder OrderStatus.Cancelled])
                      "k3x9q2m1a" "2")))
    = Some stored
    /\ Order.items stored = toggledItems (sampleOrder OrderStatus.Cancelled) "2"
    /\ Order.status stored = OrderStatus.Cancelled
    /\ toggledItems (sampleOrder OrderStatus.Cancelled) "2"
       <> Order.items (sampleOrder OrderStatus.Cancelled).
Proof.
  assert (Hhas : exists item,
             In item (Order.items (sampleOrder OrderStatus.Cancelled))
             /\ CartItem.id item = "2"%string).
  { exists (CartItem.with_isPrepared (cartLine icedLatte 1) false).
    split; [| reflexivity]. simpl. right. left. reflexivity. }
  destruct (toggle_terminal_flips_items
              (localStore [sampleOrder OrderStatus.Cancelled])
              "k3x9q2m1a" "2" (sampleOrder OrderStatus.Cancelled)
              eq_refl (or_introl eq_refl) Hhas)
    as (_ & Hlocal & _ & _ & _ & Hchanged).
  destruct (Hlocal eq_refl) as (stored & Hfound & Hitems & Hstatus & _).
  exists stored. repeat split; assumption.
Defined.

End Lifecycle.

(** * Store: order creation, realtime merge, row mapping, context hook *)

Section StoreLayer.
Import UseStore.

Lemma newOrderLocal_status_unpaid (generateId now : string) (orderData : OrderData.t) :
  OrderData.paymentStatus orderData = PaymentStatus.Unpaid ->
  Order.status (newOrderLocal generateId now orderData) = OrderStatus.Pending.
Proof. intros H. unfold newOrderLocal. simpl. now rewrite H. Qed.

Lemma newOrderLocal_status_paid (generateId now : string) (orderData : OrderData.t) :
  OrderData.paymentStatus orderData = PaymentStatus.Paid ->
  Order.status (newOrderLocal generateId now orderData) = OrderStatus.Paid.
Proof. intros H. unfold newOrderLocal. simpl. now rewrite H. Qed.

(** Every line of a new order starts unprepared. *)
Lemma newOrderLocal_unprepared (generateId now : string) (orderData : OrderData.t) :
  preparedCountOf (Order.items (newOrderLocal generateId now orderData)) = 0.
Proof.
  unfold newOrderLocal, preparedCountOf. simpl.
  induction (OrderData.items orderData) as [| item l IH]; simpl; auto.
Qed.

(** C1, as stated, fails: a checkout marked Paid comes back from
    [createOrder] with workflow status Paid, not Pending. *)
Lemma createOrder_paid_counterexample :
  ~ (forall s generateId now single orderData order,
       OrderData.paymentStatus orderData = PaymentStatus.Paid ->
       snd (createOrder s generateId now single orderData) = Some order ->
       Order.status order = OrderStatus.Pending).
Proof.
  intros H.
  specialize (H (localStore []) "a1b2c3d4e"%string
                "2024-05-01T08:00:00.000Z"%string
                (storingBackend "a1b2c3d4e" "2024-05-01T08:00:00.000Z")
                paidCheckout _ eq_refl eq_refl).
  discriminate H.
Qed.

(** C1, amended.  For a checkout whose payment status is Paid, the order
    [createOrder] builds has workflow status Paid: in local mode that order
    is put first in the collection and returned; in realtime mode the
    document sent to the backend carries status Paid and the order returned
    is the mapped row of the backend's answer, with status Paid when the
    backend stored the status it was sent. *)
Theorem createOrder_paid_seeds_paid (s : Store) (generateId now : string)
        (single : OrdersInsert.t -> option DbOrder.t) (orderData : OrderData.t) :
  OrderData.paymentStatus orderData = PaymentStatus.Paid ->
  (isRealtime s = false ->
   exists order,
     createOrder s generateId now single orderData
     = (setOrders s (fun prev => order :: prev), [], Some order)
     /\ Order.status order = OrderStatus.Paid)
  /\ (isRealtime s = true ->
      exists dbOrder,
        fst (createOrder s generateId now single orderData)
        = (s, [OrdersInsertSelect dbOrder])
        /\ OrdersInsert.status dbOrder = OrderStatus.Paid
        /\ snd (createOrder s generateId now single orderData)
           = option_map mapDbOrder (single dbOrder)
        /\ (forall row,
              single dbOrder = Some row ->
              DbOrder.status row = OrdersInsert.status dbOrder ->
              exists order,
                snd (createOrder s generateId now single orderData) = Some order
                /\ Order.status order = OrderStatus.Paid)).
Proof.
  intros Hpaid.
  pose proof (newOrderLocal_status_paid generateId now orderData Hpaid) as Hst.
  unfold createOrder. split; intros Hrt; rewrite Hrt.
  - eexists. split; [reflexivity | exact Hst].
  - exists (dbOrderOf orderData (newOrderLocal generateId now orderData)).
    destruct (single _) as [data |] eqn:Hsingle; simpl;
      repeat split; try exact Hst; try discriminate.
    intros row [= <-] Hrow. eexists. split; [reflexivity |].
    simpl. rewrite Hrow. exact Hst.
Qed.

Lemma createOrder_paid_seeds_paid_witness :
  exists order,
    createOrder (localStore []) "a1b2c3d4e" "2024-05-01T08:00:00.000Z"
                (storingBackend "a1b2c3d4e" "2024-05-01T08:00:00.000Z")
                paidCheckout
    = (setOrders (localStore []) (fun prev => order :: prev), [], Some order)
    /\ Order.status order = OrderStatus.Paid.
Proof.
  exact (proj1 (createOrder_paid_seeds_paid
                  (localStore []) "a1b2c3d4e" "2024-05-01T08:00:00.000Z"
                  (storingBackend "a1b2c3d4e" "2024-05-01T08:00:00.000Z")
                  paidCheckout eq_refl) eq_refl).
Defined.

(** ** Realtime merge *)

Lemma menuSub_insert (new : DbMenuItem.t) (prev : list MenuItem.t) (x : MenuItem.t) :
  In x (menuSub (INSERT new) prev) <-> In x prev \/ x = mapDbMenuItem new.
Proof.
  simpl. rewrite in_app_iff. simpl. intuition congruence.
Qed.

Lemma menuSub_update (new : DbMenuItem.t) (prev : list MenuItem.t)
      (n : nat) (item : MenuItem.t) :
  nth_error prev n = Some item ->
  nth_error (menuSub (UPDATE new) prev) n =
    Some (if String.eqb (MenuItem.id item) (DbMenuItem.id new)
          then mapDbMenuItem new else item).
Proof. intros H. simpl. now rewrite nth_error_map, H. Qed.

Lemma menuSub_delete (old : DbMenuItem.t) (prev : list MenuItem.t) (x : MenuItem.t) :
  In x (menuSub (DELETE old) prev)
  <-> In x prev /\ MenuItem.id x <> DbMenuItem.id old.
Proof.
  simpl. rewrite filter_In, negb_true_iff, String.eqb_neq. reflexivity.
Qed.

Lemma ordersSub_insert (new : DbOrder.t) (prev : list Order.t) :
  ordersSub (INSERT new) prev = mapDbOrder new :: prev.
Proof. reflexivity. Qed.

Lemma ordersSub_update (new : DbOrder.t) (prev : list Order.t)
      (n : nat) (order : Order.t) :
  nth_error prev n = Some order ->
  nth_error (ordersSub (UPDATE new) prev) n =
    Some (if String.eqb (Order.id order) (DbOrder.id new)
          then mapDbOrder new else order).
Proof. intros H. simpl. now rewrite nth_error_map, H. Qed.

(** C5.  The orders handler has no DELETE branch: a delete notification
    leaves the collection as it was, the deleted order included, although
    [deleteOrder] in realtime mode only calls the backend and leaves the
    removal to the notification, and the menu handler drops the row under
    the same kind of event. *)
Theorem ordersSub_delete_not_merged :
  (forall old prev, ordersSub (DELETE old) prev = prev)
  /\ Order.id (sampleOrder OrderStatus.Completed)
     = DbOrder.id (sampleOrderRow OrderStatus.Completed)
  /\ ordersSub (DELETE (sampleOrderRow OrderStatus.Completed))
               [sampleOrder OrderStatus.Completed]
     = [sampleOrder OrderStatus.Completed]
  /\ deleteOrder (realtimeStore [sampleOrder OrderStatus.Completed]) "k3x9q2m1a"
     = (realtimeStore [sampleOrder OrderStatus.Completed],
        [OrdersDelete "k3x9q2m1a"])
  /\ In icedLatte DEFAULT_MENU
  /\ ~ In icedLatte (menuSub (DELETE icedLatteRow) DEFAULT_MENU).
Proof.
  repeat split.
  - simpl. right. left. reflexivity.
  - rewrite menuSub_delete. intros [_ H]. apply H. reflexivity.
Qed.

(** ** Row mapping *)

(** Name, base price and category survive the round trip, and so does a
    bundle the item has; an item without a bundle comes back with the
    column default, a disabled bundle. *)
Lemma roundTrip_carried_fields (uuid : string) (item : NewMenuItem.t) :
  MenuItem.name (roundTrip uuid item) = NewMenuItem.name item
  /\ MenuItem.basePrice (roundTrip uuid item) = NewMenuItem.basePrice item
  /\ MenuItem.category (roundTrip uuid item) = NewMenuItem.category item
  /\ (NewMenuItem.bundle item <> None ->
      MenuItem.bundle (roundTrip uuid item) = NewMenuItem.bundle item)
  /\ (NewMenuItem.bundle item = None ->
      MenuItem.bundle (roundTrip uuid item) = Some MenuInsert.columnDefault).
Proof.
  repeat split; unfold roundTrip; simpl.
  - destruct (NewMenuItem.bundle item); [reflexivity | contradiction].
  - intros H. now rewrite H.
Qed.

(** C6.  The document [addMenuItem] builds has no [image] key, so the
    image of a menu item does not come back from the round trip, while the
    local branch of [addMenuItem] keeps it. *)
Theorem roundTrip_drops_image :
  (forall uuid item, MenuItem.image (roundTrip uuid item) = None)
  /\ NewMenuItem.image matchaWithImage = Some "matcha.png"%string
  /\ MenuItem.image (roundTrip "7f3c" matchaWithImage)
     <> NewMenuItem.image matchaWithImage
  /\ nth_error (menu (fst (addMenuItem (localStore []) "7f3c" matchaWithImage)))
               (List.length DEFAULT_MENU)
     = Some (MenuItem.mk "7f3c" "Matcha" 32000 Tea (Some "matcha.png"%string)
                         None).
Proof.
  repeat split. discriminate.
Qed.

(** ** Context hook *)

(** C9.  With no enclosing provider the context value is [undefined] and
    [useStore] throws; inside a provider it returns that provider's
    value. *)
Theorem useStore_outside_provider (V : Type) :
  @useStore V [] = inl (Error "useStore must be used within a StoreProvider")
  /\ (forall result : V, @useStore V [] <> inr result)
  /\ (forall (value : V) (outer : list V), useStore (value :: outer) = inr value).
Proof. repeat split. discriminate. Qed.

End StoreLayer.

(** * Pricing: further properties of [calculateItemTotal] *)

Section PricingLaws.
Local Open Scope Z_scope.
Import Utils.

Lemma calculateItemTotal_small
        (item : MenuItem.t) (b : BundleConfig.t) (quantity : Z) :
  MenuItem.bundle item = Some b ->
  0 <= quantity < BundleConfig.buyQuantity b ->
  calculateItemTotal item quantity = MenuItem.basePrice item * quantity.
Proof.
  intros Hb Hq.
  destruct (BundleConfig.enabled b) eqn:He.
  2: { apply (calculateItemTotal_inert item b quantity Hb). now left. }
  destruct (Z.eq_dec (BundleConfig.bundlePrice b) 0) as [Hp | Hp].
  { apply (calculateItemTotal_inert item b quantity Hb). now right; right. }
  rewrite (calculateItemTotal_bundle item b quantity Hb He ltac:(lia) Hp).
  rewrite Z.div_small by lia. rewrite Z.rem_small by lia. lia.
Qed.

(** X1.  Below the bundle threshold no bundle is charged, whatever the flags and
    the bundle price are. *)
Theorem calculateItemTotal_below_threshold
        (item : MenuItem.t) (b : BundleConfig.t) (quantity : Z) :
  MenuItem.bundle item = Some b ->
  0 <= quantity < BundleConfig.buyQuantity b ->
  calculateItemTotal item quantity = MenuItem.basePrice item * quantity.
Proof. apply calculateItemTotal_small. Qed.

Lemma calculateItemTotal_below_threshold_witness :
  calculateItemTotal (nth 2 DEFAULT_MENU icedLatte) 2 = 20000 * 2.
Proof.
  apply (calculateItemTotal_below_threshold
           (nth 2 DEFAULT_MENU icedLatte)
           (BundleConfig.mk true 3 50000 true) 2);
    [reflexivity | simpl; lia].
Defined.

(** X2.  Each further whole bundle adds exactly the bundle price. *)
Theorem calculateItemTotal_add_bundles
        (item : MenuItem.t) (b : BundleConfig.t) (quantity k : Z) :
  MenuItem.bundle item = Some b ->
  BundleConfig.enabled b = true ->
  0 < BundleConfig.buyQuantity b ->
  BundleConfig.bundlePrice b <> 0 ->
  0 <= quantity -> 0 <= k ->
  calculateItemTotal item (quantity + k * BundleConfig.buyQuantity b)
  = calculateItemTotal item quantity + k * BundleConfig.bundlePrice b.
Proof.
  intros Hb He Hq Hp Hn Hk.
  assert (Hnz : BundleConfig.buyQuantity b <> 0) by lia.
  rewrite !(calculateItemTotal_bundle item b _ Hb He Hnz Hp).
  rewrite Z.div_add by assumption.
  rewrite !Z.rem_mod_nonneg by nia.
  rewrite Z_mod_plus_full. lia.
Qed.

Lemma calculateItemTotal_add_bundles_witness :
  calculateItemTotal icedLatte (1 + 2 * 2)
  = calculateItemTotal icedLatte 1 + 2 * 60000.
Proof.
  apply (calculateItemTotal_add_bundles icedLatte
           (BundleConfig.mk true 2 60000 true) 1 2);
    [reflexivity | reflexivity | simpl; lia | simpl; lia | lia | lia].
Defined.

(** X3.  The bundle total is the plain total less, per whole bundle, the gap
    between [buyQuantity] units and the bundle price; so a bundle priced at
    most [buyQuantity] units never charges more than the plain price. *)
Theorem calculateItemTotal_saving
        (item : MenuItem.t) (b : BundleConfig.t) (quantity : Z) :
  MenuItem.bundle item = Some b ->
  BundleConfig.enabled b = true ->
  0 < BundleConfig.buyQuantity b ->
  BundleConfig.bundlePrice b <> 0 ->
  0 <= quantity ->
  calculateItemTotal item quantity
  = MenuItem.basePrice item * quantity
    - quantity / BundleConfig.buyQuantity b
      * (BundleConfig.buyQuantity b * MenuItem.basePrice item
         - BundleConfig.bundlePrice b)
  /\ (BundleConfig.bundlePrice b
      <= BundleConfig.buyQuantity b * MenuItem.basePrice item ->
      calculateItemTotal item quantity <= MenuItem.basePrice item * quantity).
Proof.
  intros Hb He Hq Hp Hn.
  assert (Hnz : BundleConfig.buyQuantity b <> 0) by lia.
  rewrite (calculateItemTotal_bundle item b _ Hb He Hnz Hp).
  rewrite Z.rem_mod_nonneg by lia.
  pose proof (Z.div_mod quantity (BundleConfig.buyQuantity b) Hnz) as Hdm.
  pose proof (Z.div_pos quantity (BundleConfig.buyQuantity b) Hn Hq) as Hdiv.
  set (d := quantity / BundleConfig.buyQuantity b) in *.
  set (m := quantity mod BundleConfig.buyQuantity b) in *.
  assert (Heq : d * BundleConfig.bundlePrice b + m * MenuItem.basePrice item
                = MenuItem.basePrice item * quantity
                  - d * (BundleConfig.buyQuantity b * MenuItem.basePrice item
                         - BundleConfig.bundlePrice b)).
  { rewrite Hdm at 1. ring. }
  split; [exact Heq |].
  intros Hle. rewrite Heq.
  assert (0 <= d * (BundleConfig.buyQuantity b * MenuItem.basePrice item
                    - BundleConfig.bundlePrice b))
    by (apply Z.mul_nonneg_nonneg; lia).
  lia.
Qed.

Lemma calculateItemTotal_saving_witness :
  calculateItemTotal icedLatte 5 = 35000 * 5 - 5 / 2 * (2 * 35000 - 60000).
Proof.
  exact (proj1 (calculateItemTotal_saving icedLatte
                  (BundleConfig.mk true 2 60000 true) 5
                  eq_refl eq_refl ltac:(simpl; lia) ltac:(simpl; lia)
                  ltac:(lia))).
Defined.

(** X4.  With a non-negative base price, and non-negative bundle figures if there
    is a bundle, no non-negative quantity is charged a negative amount. *)
Theorem calculateItemTotal_nonneg (item : MenuItem.t) (quantity : Z) :
  0 <= MenuItem.basePrice item ->
  0 <= quantity ->
  (forall b, MenuItem.bundle item = Some b ->
             0 <= BundleConfig.buyQuantity b /\ 0 <= BundleConfig.bundlePrice b) ->
  0 <= calculateItemTotal item quantity.
Proof.
  intros Hu Hq Hb.
  destruct (MenuItem.bundle item) as [b |] eqn:Eb.
  2: { rewrite (calculateItemTotal_no_bundle item quantity Eb).
       now apply Z.mul_nonneg_nonneg. }
  destruct (Hb b eq_refl) as [Hbq Hbp].
  destruct (BundleConfig.enabled b) eqn:He.
  2: { rewrite (calculateItemTotal_inert item b quantity Eb) by now left.
       now apply Z.mul_nonneg_nonneg. }
  destruct (Z.eq_dec (BundleConfig.buyQuantity b) 0) as [Hz | Hz].
  { rewrite (calculateItemTotal_inert item b quantity Eb) by (right; now left).
    now apply Z.mul_nonneg_nonneg. }
  destruct (Z.eq_dec (BundleConfig.bundlePrice b) 0) as [Hpz | Hpz].
  { rewrite (calculateItemTotal_inert item b quantity Eb) by (right; now right).
    now apply Z.mul_nonneg_nonneg. }
  rewrite (calculateItemTotal_bundle item b quantity Eb He Hz Hpz).
  apply Z.add_nonneg_nonneg; apply Z.mul_nonneg_nonneg; try lia.
  - apply Z.div_pos; lia.
  - apply Z.rem_nonneg; lia.
Qed.

Lemma calculateItemTotal_nonneg_witness :
  0 <= calculateItemTotal icedLatte 7.
Proof.
  apply (calculateItemTotal_nonneg icedLatte 7); [simpl; lia | lia |].
  intros b [= <-]. simpl. lia.
Defined.

End PricingLaws.

(** * Cashier cart *)

Section Cart.
Local Open Scope Z_scope.
Import CashierView.

Lemma with_quantity_id (i : CartItem.t) (q : Z) :
  CartItem.id (with_quantity i q) = CartItem.id i.
Proof. reflexivity. Qed.

Lemma with_quantity_back (i : CartItem.t) (q : Z) :
  with_quantity (with_quantity i q) (CartItem.quantity i) = i.
Proof. now destruct i. Qed.

Lemma map_ids_stable (f : CartItem.t -> CartItem.t) (p : CartItem.t -> bool)
      (l : list CartItem.t) :
  (forall i, CartItem.id (f i) = CartItem.id i) ->
  map CartItem.id (map (fun i => if p i then f i else i) l) = map CartItem.id l.
Proof.
  intros Hf. rewrite map_map. apply map_ext. intros i.
  now destruct (p i).
Qed.

Lemma NoDup_ids_filter (p : CartItem.t -> bool) (l : list CartItem.t) :
  NoDup (map CartItem.id l) -> NoDup (map CartItem.id (filter p l)).
Proof.
  induction l as [| i l IH]; simpl; intros H; [constructor |].
  inversion H as [| x xs Hnotin Hnd]; subst.
  destruct (p i); simpl; auto.
  constructor; auto.
  intros Hin. apply Hnotin.
  apply in_map_iff in Hin as (j & Hj & Hin).
  apply filter_In in Hin as [Hin _].
  apply in_map_iff. eauto.
Qed.

Lemma addToCart_well_formed (item : MenuItem.t) (prev : list CartItem.t) :
  cartWellFormed prev -> cartWellFormed (addToCart item prev).
Proof.
  intros [Hnd Hq]. unfold addToCart.
  destruct (find _ prev) as [existing |] eqn:Hfind.
  - split.
    + rewrite (map_ids_stable
                 (fun i => with_quantity i (CartItem.quantity i + 1))
                 (fun i => String.eqb (CartItem.id i) (MenuItem.id item)));
        auto.
    + apply Forall_map. eapply Forall_impl; [| exact Hq].
      intros i Hi. simpl in Hi.
      destruct (String.eqb (CartItem.id i) (MenuItem.id item)); simpl; lia.
  - split.
    + rewrite map_app. simpl. apply NoDup_app; auto.
      * constructor; [intros [] | constructor].
      * intros a Hin [<- | []].
        apply in_map_iff in Hin as (j & Hj & Hin).
        pose proof (find_none _ _ Hfind j Hin) as Hne. simpl in Hne.
        apply String.eqb_neq in Hne. congruence.
    + apply Forall_app. split; [assumption |].
      constructor; [simpl; lia | constructor].
Qed.

(** Whatever the cart was, no line is left at quantity zero or below. *)
Lemma updateQuantity_positive (itemId : string) (delta : Z) (prev : list CartItem.t) :
  Forall (fun i => 0 < CartItem.quantity i) (updateQuantity itemId delta prev).
Proof.
  unfold updateQuantity. apply Forall_forall. intros i Hin.
  apply filter_In in Hin as [_ Hpos]. now apply Z.ltb_lt.
Qed.

Lemma updateQuantity_well_formed (itemId : string) (delta : Z)
      (prev : list CartItem.t) :
  cartWellFormed prev -> cartWellFormed (updateQuantity itemId delta prev).
Proof.
  intros [Hnd _]. split; [| apply updateQuantity_positive].
  unfold updateQuantity. apply NoDup_ids_filter.
  rewrite (map_ids_stable
             (fun i => with_quantity i (Z.max 0 (CartItem.quantity i + delta)))
             (fun i => String.eqb (CartItem.id i) itemId)); auto.
Qed.

Lemma updateItemNote_well_formed (itemId note : string) (prev : list CartItem.t) :
  cartWellFormed prev -> cartWellFormed (updateItemNote itemId note prev).
Proof.
  intros [Hnd Hq]. unfold updateItemNote. split.
  - rewrite (map_ids_stable (fun i => with_note i note)
               (fun i => String.eqb (CartItem.id i) itemId)); auto.
  - apply Forall_map. eapply Forall_impl; [| exact Hq].
    intros i Hi. simpl. now destruct (String.eqb (CartItem.id i) itemId).
Qed.

Lemma cartStep_well_formed (cart : list CartItem.t) (e : CartEvent) :
  cartWellFormed cart -> cartWellFormed (cartStep cart e).
Proof.
  destruct e; simpl.
  - apply addToCart_well_formed.
  - apply updateQuantity_well_formed.
  - apply updateItemNote_well_formed.
Qed.

Lemma runCart_invariant (events : list CartEvent) :
  cartWellFormed (runCart events).
Proof.
  unfold runCart.
  assert (H : cartWellFormed []) by (split; constructor).
  revert H. generalize (@nil CartItem.t).
  induction events as [| e events IH]; intros cart H; simpl; [exact H |].
  apply IH. now apply cartStep_well_formed.
Qed.

(** X5.  However the cashier taps, a cart that starts empty holds one line per
    item id and only positive quantities. *)
Theorem runCart_well_formed (events : list CartEvent) :
  cartWellFormed (runCart events).
Proof. apply runCart_invariant. Qed.

(** X6.  Adding an item and taking one unit off again gives back the cart, for
    a new line as for one that was there. *)
Theorem addToCart_then_minus_one (item : MenuItem.t) (prev : list CartItem.t) :
  Forall (fun i => 0 < CartItem.quantity i) prev ->
  updateQuantity (MenuItem.id item) (-1) (addToCart item prev) = prev.
Proof.
  intros Hq. unfold addToCart.
  destruct (find _ prev) as [existing |] eqn:Hfind.
  - clear Hfind. unfold updateQuantity. rewrite map_map.
    induction Hq as [| i l Hi Hl IH]; simpl; [reflexivity |].
    destruct (String.eqb (CartItem.id i) (MenuItem.id item)) eqn:E; simpl.
    + rewrite E. simpl.
      replace (Z.max 0 (CartItem.quantity i + 1 + -1)) with (CartItem.quantity i)
        by lia.
      rewrite with_quantity_back.
      destruct (Z.ltb_spec 0 (CartItem.quantity i)); [| lia].
      now rewrite IH.
    + rewrite E.
      destruct (Z.ltb_spec 0 (CartItem.quantity i)); [| lia].
      now rewrite IH.
  - pose proof (find_none _ _ Hfind) as Hnone. clear Hfind.
    unfold updateQuantity. rewrite map_app, filter_app. simpl.
    rewrite String.eqb_refl. simpl.
    rewrite app_nil_r.
    induction Hq as [| i l Hi Hl IH]; simpl; [reflexivity |].
    rewrite (Hnone i (or_introl eq_refl)).
    destruct (Z.ltb_spec 0 (CartItem.quantity i)); [| lia].
    rewrite IH; [reflexivity |].
    intros x Hx. apply Hnone. now right.
Qed.

Lemma addToCart_then_minus_one_witness :
  updateQuantity "2" (-1) (addToCart icedLatte sampleCart) = sampleCart.
Proof.
  apply (addToCart_then_minus_one icedLatte sampleCart).
  repeat constructor.
Defined.

(** X7.  Taking a line to zero or below removes it, and nothing else. *)
Theorem updateQuantity_removes_line (itemId : string) (delta : Z)
        (prev : list CartItem.t) :
  Forall (fun i => 0 < CartItem.quantity i) prev ->
  (forall i, In i prev -> CartItem.id i = itemId ->
             CartItem.quantity i + delta <= 0) ->
  updateQuantity itemId delta prev
  = filter (fun i => negb (String.eqb (CartItem.id i) itemId)) prev.
Proof.
  intros Hq Hzero. unfold updateQuantity.
  induction Hq as [| i l Hi Hl IH]; simpl; [reflexivity |].
  rewrite IH by (intros x Hx; apply Hzero; now right).
  destruct (String.eqb_spec (CartItem.id i) itemId) as [E | E]; simpl.
  - pose proof (Hzero i (or_introl eq_refl) E).
    destruct (Z.ltb_spec 0 (Z.max 0 (CartItem.quantity i + delta)));
      [lia | reflexivity].
  - destruct (Z.ltb_spec 0 (CartItem.quantity i)); [reflexivity | lia].
Qed.

Lemma updateQuantity_removes_line_witness :
  updateQuantity "2" (-1) sampleCart
  = filter (fun i => negb (String.eqb (CartItem.id i) "2")) sampleCart.
Proof.
  apply (updateQuantity_removes_line "2" (-1) sampleCart).
  - repeat constructor.
  - intros i Hin _. simpl in Hin.
    destruct Hin as [<- | [<- | [<- | []]]]; simpl; lia.
Defined.

Lemma cartTotal_from (cart : list CartItem.t) (start : Z) :
  fold_left (fun sum item =>
               sum + Utils.calculateItemTotal (asMenuItem item)
                                              (CartItem.quantity item))
            cart start
  = start + cartTotal cart.
Proof.
  unfold cartTotal. revert start.
  induction cart as [| i l IH]; intros start; simpl; [lia |].
  rewrite (IH (start + _)).
  rewrite (IH (Utils.calculateItemTotal (asMenuItem i) (CartItem.quantity i))).
  lia.
Qed.

(** X8.  The first unit of an item not yet in the cart adds that item's price
    for one unit to the cart total. *)
Theorem cartTotal_addToCart_new (item : MenuItem.t) (prev : list CartItem.t) :
  (forall i, In i prev -> CartItem.id i <> MenuItem.id item) ->
  cartTotal (addToCart item prev)
  = cartTotal prev + Utils.calculateItemTotal item 1.
Proof.
  intros Hnew. unfold addToCart.
  destruct (find _ prev) as [existing |] eqn:Hfind.
  - apply find_some in Hfind as [Hin Heq].
    apply String.eqb_eq in Heq. now apply Hnew in Hin.
  - unfold cartTotal at 1. rewrite fold_left_app. simpl.
    fold (cartTotal prev).
    now destruct item.
Qed.

Lemma cartTotal_addToCart_new_witness :
  cartTotal (addToCart icedLatte
               [cartLine (nth 0 DEFAULT_MENU icedLatte) 2;
                cartLine (nth 2 DEFAULT_MENU icedLatte) 4])
  = cartTotal [cartLine (nth 0 DEFAULT_MENU icedLatte) 2;
               cartLine (nth 2 DEFAULT_MENU icedLatte) 4]
    + 35000.
Proof.
  apply (cartTotal_addToCart_new icedLatte
           [cartLine (nth 0 DEFAULT_MENU icedLatte) 2;
            cartLine (nth 2 DEFAULT_MENU icedLatte) 4]).
  intros i [<- | [<- | []]]; simpl; discriminate.
Defined.

(** X9.  While the cart shows the "add more for the bundle" hint on a line, that
    line is charged the plain price. *)
Theorem showSuggestion_plain_price (item : CartItem.t) :
  showSuggestion item = true ->
  Utils.calculateItemTotal (asMenuItem item) (CartItem.quantity item)
  = CartItem.basePrice item * CartItem.quantity item.
Proof.
  unfold showSuggestion, isBundleActive.
  destruct (CartItem.bundle item) as [b |] eqn:Eb; [| discriminate].
  intros H. apply andb_prop in H as [H Hpos]. apply andb_prop in H as [He Hact].
  rewrite He in Hact. simpl in Hact. apply negb_true_iff in Hact.
  apply Z.ltb_lt in Hpos.
  assert (Hb : MenuItem.bundle (asMenuItem item) = Some b) by exact Eb.
  destruct (Z.eq_dec (BundleConfig.buyQuantity b) 0) as [Hz | Hz].
  { apply (calculateItemTotal_inert (asMenuItem item) b _ Hb).
    right. now left. }
  apply (proj2 (truthyZ_true _)) in Hz. rewrite Hz in Hact.
  apply (calculateItemTotal_small (asMenuItem item) b _ Hb).
  destruct (Z.geb_spec (CartItem.quantity item) (BundleConfig.buyQuantity b));
    [discriminate | lia].
Qed.

Lemma showSuggestion_plain_price_witness :
  Utils.calculateItemTotal (asMenuItem (cartLine icedLatte 1)) 1 = 35000 * 1.
Proof.
  apply (showSuggestion_plain_price (cartLine icedLatte 1)). reflexivity.
Defined.

End Cart.

(** * Store actions in local mode *)

Section LocalStore.
Import UseStore.

Lemma findOrder_filter_removed (id : string) (l : list Order.t) :
  findOrder id (filter (fun o => negb (String.eqb (Order.id o) id)) l) = None.
Proof.
  unfold findOrder. induction l as [| o l IH]; simpl; [reflexivity |].
  destruct (String.eqb (Order.id o) id) eqn:E; simpl; [exact IH |].
  now rewrite E.
Qed.

Lemma findOrder_filter_other (id other : string) (l : list Order.t) :
  other <> id ->
  findOrder other (filter (fun o => negb (String.eqb (Order.id o) id)) l)
  = findOrder other l.
Proof.
  intros Hne. unfold findOrder. induction l as [| o l IH]; simpl; [reflexivity |].
  destruct (String.eqb (Order.id o) id) eqn:E; simpl.
  - apply String.eqb_eq in E.
    assert (Hno : String.eqb (Order.id o) other = false)
      by (apply String.eqb_neq; congruence).
    now rewrite Hno.
  - now rewrite IH.
Qed.

Lemma map_unmatched (id : string) (f : Order.t -> Order.t) (l : list Order.t) :
  findOrder id l = None ->
  map (fun o => if String.eqb (Order.id o) id then f o else o) l = l.
Proof.
  unfold findOrder. induction l as [| o l IH]; simpl; [reflexivity |].
  destruct (String.eqb (Order.id o) id); [discriminate |].
  intros H. now rewrite IH.
Qed.

Lemma filter_unmatched (id : string) (l : list Order.t) :
  findOrder id l = None ->
  filter (fun o => negb (String.eqb (Order.id o) id)) l = l.
Proof.
  unfold findOrder. induction l as [| o l IH]; simpl; [reflexivity |].
  destruct (String.eqb (Order.id o) id); [discriminate |].
  intros H. simpl. now rewrite IH.
Qed.

Lemma setOrders_same (s : Store) (f : list Order.t -> list Order.t) :
  f (orders s) = orders s -> setOrders s f = s.
Proof. intros H. unfold setOrders. rewrite H. now destruct s. Qed.

(** X10.  An admin status change in local mode is read back under the order's
    id with the new status and every other field as it was, leaves every
    other id alone and makes no backend call.  It checks nothing about the
    old status. *)
Theorem updateOrderStatus_lookup (s : Store) (id : string)
        (status : OrderStatus.t) (order : Order.t) :
  isRealtime s = false ->
  findOrder id (orders s) = Some order ->
  snd (updateOrderStatus s id status) = []
  /\ (exists found,
        findOrder id (orders (fst (updateOrderStatus s id status))) = Some found
        /\ Order.status found = status
        /\ Order.id found = Order.id order
        /\ Order.customerName found = Order.customerName order
        /\ Order.items found = Order.items order
        /\ Order.total found = Order.total order
        /\ Order.paymentStatus found = Order.paymentStatus order
        /\ Order.createdAt found = Order.createdAt order
        /\ Order.note found = Order.note order)
  /\ (forall other, other <> id ->
        findOrder other (orders (fst (updateOrderStatus s id status)))
        = findOrder other (orders s)).
Proof.
  intros Hrt Hfind. unfold updateOrderStatus. rewrite Hrt. simpl.
  split; [reflexivity |]. split.
  - exists (withStatus order status). split.
    + now apply (findOrder_map_same id (fun o => withStatus o status)).
    + repeat split.
  - intros other Hne.
    now apply (findOrder_map_other other id (fun o => withStatus o status)).
Qed.

Lemma updateOrderStatus_lookup_witness :
  exists found,
    findOrder "k3x9q2m1a"
      (orders (fst (updateOrderStatus
                      (localStore [sampleOrder OrderStatus.PickedUp])
                      "k3x9q2m1a" OrderStatus.Pending)))
    = Some found
    /\ Order.status found = OrderStatus.Pending
    /\ Order.items found = Order.items (sampleOrder OrderStatus.PickedUp)
    /\ Order.total found = 80000%Z.
Proof.
  destruct (updateOrderStatus_lookup
              (localStore [sampleOrder OrderStatus.PickedUp])
              "k3x9q2m1a" OrderStatus.Pending
              (sampleOrder OrderStatus.PickedUp) eq_refl eq_refl)
    as (_ & (found & Hfound & Hstatus & _ & _ & Hitems & Htotal & _) & _).
  exists found. repeat split; assumption.
Defined.

(** X11.  Deleting an order in local mode: the id is no longer found, every
    other id is found as before, no backend call is made. *)
Theorem deleteOrder_lookup (s : Store) (id : string) :
  isRealtime s = false ->
  snd (deleteOrder s id) = []
  /\ findOrder id (orders (fst (deleteOrder s id))) = None
  /\ (forall other, other <> id ->
        findOrder other (orders (fst (deleteOrder s id)))
        = findOrder other (orders s)).
Proof.
  intros Hrt. unfold deleteOrder. rewrite Hrt. simpl.
  repeat split.
  - apply findOrder_filter_removed.
  - intros other Hne. now apply findOrder_filter_other.
Qed.

Lemma deleteOrder_lookup_witness :
  findOrder "k3x9q2m1a"
    (orders (fst (deleteOrder (localStore [sampleOrder OrderStatus.Pending])
                              "k3x9q2m1a")))
  = None.
Proof.
  exact (proj1 (proj2 (deleteOrder_lookup
                         (localStore [sampleOrder OrderStatus.Pending])
                         "k3x9q2m1a" eq_refl))).
Defined.

(** X12.  An id the store does not hold: the status change, the delete and the
    item toggle all leave a local store exactly as it was. *)
Theorem unknown_order_id_untouched (s : Store) (id itemId : string)
        (status : OrderStatus.t) :
  isRealtime s = false ->
  findOrder id (orders s) = None ->
  updateOrderStatus s id status = (s, [])
  /\ deleteOrder s id = (s, [])
  /\ toggleOrderItemPrepared s id itemId = (s, []).
Proof.
  intros Hrt Hnone. unfold updateOrderStatus, deleteOrder. rewrite Hrt.
  repeat split.
  - now rewrite setOrders_same by now apply map_unmatched.
  - now rewrite setOrders_same by now apply filter_unmatched.
  - now apply toggle_not_found.
Qed.

Lemma unknown_order_id_untouched_witness :
  updateOrderStatus (localStore [emptyOrder]) "k3x9q2m1a" OrderStatus.Cancelled
  = (localStore [emptyOrder], []).
Proof.
  exact (proj1 (unknown_order_id_untouched (localStore [emptyOrder])
                  "k3x9q2m1a" "1" OrderStatus.Cancelled eq_refl eq_refl)).
Defined.

(** A run of toggles on one order, in local mode, folds [toggleStep]. *)
Lemma toggleAll_local (itemIds : list string) (s : Store) (orderId : string)
      (order : Order.t) :
  isRealtime s = false ->
  findOrder orderId (orders s) = Some order ->
  findOrder orderId
    (orders (fst (toggleAll s (map (fun itemId => (orderId, itemId)) itemIds))))
  = Some (fold_left toggleStep itemIds order)
  /\ snd (toggleAll s (map (fun itemId => (orderId, itemId)) itemIds)) = [].
Proof.
  revert s order.
  induction itemIds as [| itemId rest IH]; intros s order Hrt Hfind; simpl.
  - now split.
  - pose proof (toggle_persisted s orderId itemId order Hfind) as Hp.
    unfold persisted in Hp. rewrite Hrt in Hp.
    destruct Hp as (Hsent & _ & Hrt1 & Hfind1).
    destruct (toggleOrderItemPrepared s orderId itemId) as [s1 sent1].
    simpl in *. subst sent1.
    destruct (IH s1 _ Hrt1 Hfind1) as [Hfind2 Hsent2].
    destruct (toggleAll s1 _) as [s2 sent2]. simpl in *.
    now split.
Qed.

Lemma toggleAll_status_kept (events : list (string * string)) (s : Store)
      (orderId : string) (order : Order.t) :
  findOrder orderId (orders s) = Some order ->
  terminal (Order.status order) ->
  exists order',
    findOrder orderId (orders (fst (toggleAll s events))) = Some order'
    /\ Order.status order' = Order.status order.
Proof.
  revert s order.
  induction events as [| [oid iid] rest IH]; intros s order Hfind Hterm; simpl.
  - eauto.
  - destruct (toggle_keeps_terminal s orderId order oid iid Hfind Hterm)
      as [(order1 & Hfind1 & Hst1) _].
    destruct (toggleOrderItemPrepared s oid iid) as [s1 sent1]. simpl in *.
    assert (Hterm1 : terminal (Order.status order1)) by now rewrite Hst1.
    destruct (IH s1 order1 Hfind1 Hterm1) as (order2 & Hfind2 & Hst2).
    destruct (toggleAll s1 rest) as [s2 sent2]. simpl in *.
    exists order2. split; [assumption | congruence].
Qed.

(** X13.  Once the admin has confirmed a cancellation, no run of item toggles
    brings the order back: it stays Cancelled. *)
Theorem cancelled_stays_cancelled (s : Store) (orderId : string) (order : Order.t)
        (events : list (string * string)) :
  isRealtime s = false ->
  findOrder orderId (orders s) = Some order ->
  exists order',
    findOrder orderId
      (orders (fst (toggleAll
                      (fst (AdminDashboard.handleCancelOrder true s orderId))
                      events)))
    = Some order'
    /\ Order.status order' = OrderStatus.Cancelled.
Proof.
  intros Hrt Hfind.
  assert (Hc : findOrder orderId
                 (orders (fst (AdminDashboard.handleCancelOrder true s orderId)))
               = Some (withStatus order OrderStatus.Cancelled)).
  { unfold AdminDashboard.handleCancelOrder, updateOrderStatus.
    rewrite Hrt. simpl.
    now apply (findOrder_map_same orderId
                 (fun o => withStatus o OrderStatus.Cancelled)). }
  apply (toggleAll_status_kept events _ orderId _ Hc). now left.
Qed.

Lemma cancelled_stays_cancelled_witness :
  exists order',
    findOrder "k3x9q2m1a"
      (orders (fst (toggleAll
                      (fst (AdminDashboard.handleCancelOrder true
                              (localStore [sampleOrder OrderStatus.Preparing])
                              "k3x9q2m1a"))
                      [("k3x9q2m1a", "1"); ("k3x9q2m1a", "3")]%string)))
    = Some order'
    /\ Order.status order' = OrderStatus.Cancelled.
Proof.
  exact (cancelled_stays_cancelled
           (localStore [sampleOrder OrderStatus.Preparing]) "k3x9q2m1a"
           (sampleOrder OrderStatus.Preparing)
           [("k3x9q2m1a", "1"); ("k3x9q2m1a", "3")]%string eq_refl eq_refl).
Defined.

End LocalStore.

(** * Kitchen progress *)

Section Kitchen.
Import UseStore.

Lemma toggledItems_flip (order : Order.t) (itemId : string) :
  toggledItems order itemId = map (flipLine itemId) (Order.items order).
Proof. reflexivity. Qed.

Lemma toggleStep_items (itemIds : list string) (order : Order.t) :
  Order.items (fold_left toggleStep itemIds order)
  = map (flipLines itemIds) (Order.items order).
Proof.
  revert order. induction itemIds as [| a rest IH]; intros order; simpl.
  - symmetry. apply map_id.
  - rewrite IH. simpl. rewrite toggledItems_flip, map_map. reflexivity.
Qed.

Lemma flipLine_id (itemId : string) (item : CartItem.t) :
  CartItem.id (flipLine itemId item) = CartItem.id item.
Proof. unfold flipLine. now destruct (String.eqb _ _). Qed.

Lemma flipLines_absent (itemIds : list string) (item : CartItem.t) :
  ~ In (CartItem.id item) itemIds -> flipLines itemIds item = item.
Proof.
  unfold flipLines. revert item.
  induction itemIds as [| a rest IH]; intros item Hnot; simpl; [reflexivity |].
  assert (E : String.eqb (CartItem.id item) a = false).
  { apply String.eqb_neq. intros Heq. apply Hnot. left. now symmetry. }
  unfold flipLine at 2. rewrite E. apply IH.
  intros Hin. apply Hnot. now right.
Qed.

Lemma flipLines_once (itemIds : list string) (item : CartItem.t) :
  NoDup itemIds ->
  In (CartItem.id item) itemIds ->
  truthyFlag (CartItem.isPrepared (flipLines itemIds item))
  = negb (truthyFlag (CartItem.isPrepared item)).
Proof.
  intros Hnd. revert item.
  induction Hnd as [| a rest Hnotin Hnd IH]; intros item Hin; [destruct Hin |].
  change (flipLines (a :: rest) item) with (flipLines rest (flipLine a item)).
  destruct (String.eqb (CartItem.id item) a) eqn:E.
  - apply String.eqb_eq in E.
    rewrite flipLines_absent by (rewrite flipLine_id; congruence).
    unfold flipLine. rewrite E, String.eqb_refl. simpl.
    now destruct (truthyFlag (CartItem.isPrepared item)).
  - assert (Hf : flipLine a item = item) by (unfold flipLine; now rewrite E).
    rewrite Hf. apply IH. apply String.eqb_neq in E.
    destruct Hin as [-> | Hin]; [contradiction | exact Hin].
Qed.

Lemma count_zero_all_false {A : Type} (p : A -> bool) (l : list A) :
  List.length (filter p l) = 0 -> forall x, In x l -> p x = false.
Proof.
  induction l as [| a l IH]; simpl; intros H x Hin; [destruct Hin |].
  destruct (p a) eqn:E; [discriminate |].
  destruct Hin as [<- | Hin]; auto.
Qed.

Lemma count_all_true {A : Type} (p : A -> bool) (l : list A) :
  (forall x, In x l -> p x = true) ->
  List.length (filter p l) = List.length l.
Proof.
  induction l as [| a l IH]; simpl; intros H; [reflexivity |].
  rewrite (H a (or_introl eq_refl)). simpl. f_equal.
  apply IH. intros x Hx. apply H. now right.
Qed.

Lemma countStatus_live (items : list CartItem.t) : live (countStatus items).
Proof.
  unfold countStatus.
  destruct (Nat.eqb _ 0); [split; discriminate |].
  destruct (Nat.eqb _ _); split; discriminate.
Qed.

Lemma toggleStep_status (order : Order.t) (itemId : string) :
  live (Order.status order) ->
  Order.status (toggleStep order itemId)
  = countStatus (Order.items (toggleStep order itemId)).
Proof.
  intros [Hc Hp]. unfold toggleStep. simpl.
  now rewrite (derivedStatus_live order _ Hc Hp).
Qed.

Lemma toggleSteps_status (itemIds : list string) (order : Order.t) :
  itemIds <> [] ->
  live (Order.status order) ->
  Order.status (fold_left toggleStep itemIds order)
  = countStatus (Order.items (fold_left toggleStep itemIds order)).
Proof.
  intros Hne. revert order.
  induction itemIds as [| a rest IH]; intros order Hlive; [contradiction |].
  simpl. destruct rest as [| b rest'].
  - simpl. now apply toggleStep_status.
  - apply IH; [discriminate |].
    rewrite (toggleStep_status order a Hlive). apply countStatus_live.
Qed.

Lemma kitchen_pass (s : Store) (orderId : string) (order : Order.t) :
  isRealtime s = false ->
  findOrder orderId (orders s) = Some order ->
  Order.status order <> OrderStatus.Cancelled ->
  Order.status order <> OrderStatus.PickedUp ->
  Order.items order <> [] ->
  NoDup (map CartItem.id (Order.items order)) ->
  preparedCountOf (Order.items order) = 0 ->
  exists order',
    findOrder orderId
      (orders (fst (toggleAll s (map (fun i => (orderId, CartItem.id i))
                                     (Order.items order)))))
    = Some order'
    /\ Order.status order' = OrderStatus.Completed
    /\ preparedCountOf (Order.items order') = List.length (Order.items order')
    /\ List.length (Order.items order') = List.length (Order.items order).
Proof.
  intros Hrt Hfind Hc Hp Hne Hnd Hzero.
  set (ids := map CartItem.id (Order.items order)).
  assert (Hev : map (fun i => (orderId, CartItem.id i)) (Order.items order)
                = map (fun itemId => (orderId, itemId)) ids)
    by (unfold ids; now rewrite map_map).
  rewrite Hev.
  destruct (toggleAll_local ids s orderId order Hrt Hfind) as [Hfound _].
  exists (fold_left toggleStep ids order). split; [exact Hfound |].
  assert (Hids : ids <> []).
  { unfold ids. destruct (Order.items order); [contradiction | discriminate]. }
  assert (Hall : preparedCountOf (Order.items (fold_left toggleStep ids order))
                 = List.length (Order.items (fold_left toggleStep ids order))).
  { rewrite toggleStep_items. unfold preparedCountOf.
    apply count_all_true. intros x Hx.
    apply in_map_iff in Hx as (it & <- & Hit).
    rewrite flipLines_once; [| exact Hnd | unfold ids; now apply in_map].
    unfold preparedCountOf in Hzero.
    now rewrite (count_zero_all_false _ _ Hzero it Hit). }
  assert (Hlen : List.length (Order.items (fold_left toggleStep ids order))
                 = List.length (Order.items order))
    by (rewrite toggleStep_items; apply length_map).
  repeat split; [| exact Hall | exact Hlen].
  rewrite (toggleSteps_status ids order Hids (conj Hc Hp)).
  unfold countStatus. rewrite Hall, Hlen, Nat.eqb_refl.
  destruct (Order.items order); [contradiction | reflexivity].
Qed.

(** X14.  A full kitchen pass: on an order that is neither Cancelled nor Picked
    Up, with distinct item ids and nothing prepared yet, ticking every line
    once leaves every line prepared and the order Completed. *)
Theorem kitchen_pass_completes (s : Store) (orderId : string) (order : Order.t) :
  isRealtime s = false ->
  findOrder orderId (orders s) = Some order ->
  Order.status order <> OrderStatus.Cancelled ->
  Order.status order <> OrderStatus.PickedUp ->
  Order.items order <> [] ->
  NoDup (map CartItem.id (Order.items order)) ->
  preparedCountOf (Order.items order) = 0 ->
  exists order',
    findOrder orderId
      (orders (fst (toggleAll s (map (fun i => (orderId, CartItem.id i))
                                     (Order.items order)))))
    = Some order'
    /\ Order.status order' = OrderStatus.Completed
    /\ preparedCountOf (Order.items order') = List.length (Order.items order')
    /\ List.length (Order.items order') = List.length (Order.items order).
Proof. apply kitchen_pass. Qed.

Lemma kitchen_pass_completes_witness :
  exists order',
    findOrder "k3x9q2m1a"
      (orders (fst (toggleAll (localStore [sampleOrder OrderStatus.Pending])
                      (map (fun i => ("k3x9q2m1a"%string, CartItem.id i))
                           (Order.items (sampleOrder OrderStatus.Pending))))))
    = Some order'
    /\ Order.status order' = OrderStatus.Completed
    /\ preparedCountOf (Order.items order') = List.length (Order.items order')
    /\ List.length (Order.items order')
       = List.length (Order.items (sampleOrder OrderStatus.Pending)).
Proof.
  apply (kitchen_pass_completes (localStore [sampleOrder OrderStatus.Pending])
           "k3x9q2m1a" (sampleOrder OrderStatus.Pending));
    try reflexivity; try discriminate.
  simpl. repeat constructor; simpl; intuition discriminate.
Defined.





(** X16.  After a tick in the detail panel of an order that is neither Cancelled
    nor Picked Up, the panel's "all prepared" flag and the stored status
    agree: the flag is set exactly when the order is Completed. *)
Theorem panel_all_prepared_iff_completed (s : Store) (order : Order.t)
        (item : CartItem.t) :
  isRealtime s = false ->
  findOrder (Order.id order) (orders s) = Some order ->
  Order.status order <> OrderStatus.Cancelled ->
  Order.status order <> OrderStatus.PickedUp ->
  exists order',
    findOrder (Order.id order)
              (orders (fst (OrderDetailPanel.onChange s order item)))
    = Some order'
    /\ (Order.status order' = OrderStatus.Completed
        <-> OrderDetailPanel.isAllPrepared order' = true).
Proof.
  intros Hrt Hfind Hc Hp.
  unfold OrderDetailPanel.onChange, OrderDetailPanel.isPickedUp.
  rewrite (proj2 (status_eqb_neq _ _) Hp). simpl.
  pose proof (toggle_persisted s (Order.id order) (CartItem.id item) order Hfind)
    as Hper.
  unfold persisted in Hper. rewrite Hrt in Hper.
  destruct Hper as (_ & _ & _ & Hfound).
  eexists. split; [exact Hfound |].
  rewrite (derivedStatus_live order _ Hc Hp).
  unfold OrderDetailPanel.isAllPrepared, OrderDetailPanel.preparedItems,
    OrderDetailPanel.totalItems. simpl.
  fold (preparedCountOf (toggledItems order (CartItem.id item))).
  set (prepared := preparedCountOf (toggledItems order (CartItem.id item))).
  set (total := List.length (toggledItems order (CartItem.id item))).
  destruct (Nat.eqb_spec prepared 0) as [Hz | Hz].
  - split; [discriminate |].
    intros H. apply andb_prop in H as [H1 H2].
    apply Nat.eqb_eq in H1. apply Nat.ltb_lt in H2. lia.
  - destruct (Nat.eqb_spec prepared total) as [Ht | Ht]; simpl.
    + split; [| reflexivity]. intros _. apply Nat.ltb_lt. lia.
    + split; discriminate.
Qed.

Lemma panel_all_prepared_iff_completed_witness :
  exists order',
    findOrder "k3x9q2m1a"
      (orders (fst (OrderDetailPanel.onChange
                      (localStore [sampleOrder OrderStatus.Pending])
                      (sampleOrder OrderStatus.Pending)
                      (cartLine icedLatte 1))))
    = Some order'
    /\ (Order.status order' = OrderStatus.Completed
        <-> OrderDetailPanel.isAllPrepared order' = true).
Proof.
  apply (panel_all_prepared_iff_completed
           (localStore [sampleOrder OrderStatus.Pending])
           (sampleOrder OrderStatus.Pending) (cartLine icedLatte 1));
    [reflexivity | reflexivity | discriminate | discriminate].
Defined.

End Kitchen.

(** * From the cart to the kitchen *)

Section Checkout.
Import UseStore.

Lemma newOrderLocal_item_ids (generateId now : string) (orderData : OrderData.t) :
  map CartItem.id (Order.items (newOrderLocal generateId now orderData))
  = map CartItem.id (OrderData.items orderData).
Proof. unfold newOrderLocal. simpl. rewrite map_map. reflexivity. Qed.

Lemma newOrderLocal_live (generateId now : string) (orderData : OrderData.t) :
  live (Order.status (newOrderLocal generateId now orderData)).
Proof.
  unfold newOrderLocal. simpl.
  destruct (PaymentStatus.eqb _ _); split; discriminate.
Qed.

Lemma createOrder_local (s : Store) (generateId now : string)
      (single : OrdersInsert.t -> option DbOrder.t) (orderData : OrderData.t) :
  isRealtime s = false ->
  createOrder s generateId now single orderData
  = (setOrders s (fun prev => newOrderLocal generateId now orderData :: prev),
     [], Some (newOrderLocal generateId now orderData))
  /\ findOrder generateId
       (orders (setOrders s (fun prev =>
                               newOrderLocal generateId now orderData :: prev)))
     = Some (newOrderLocal generateId now orderData).
Proof.
  intros Hrt. unfold createOrder. rewrite Hrt. split; [reflexivity |].
  unfold findOrder. simpl. now rewrite String.eqb_refl.
Qed.

Lemma toggleSteps_total (itemIds : list string) (order : Order.t) :
  Order.total (fold_left toggleStep itemIds order) = Order.total order.
Proof.
  revert order. induction itemIds as [| a rest IH]; intros order; simpl;
    [reflexivity |].
  now rewrite IH.
Qed.

(** X17.  Checkout.  An empty cart submits nothing.  A non-empty cart, in local
    mode, becomes the newest order of the store, found under its new id:
    its total is the cart total, a blank customer name reads Guest, the
    lines are the cart's lines, none of them prepared, and the payment
    status is the one chosen. *)
Theorem checkout_creates_order (s : Store) (generateId now : string)
        (single : OrdersInsert.t -> option DbOrder.t)
        (cart : list CartItem.t) (customerName globalNote : string)
        (paymentStatus : PaymentStatus.t) :
  CashierView.handleConfirmOrder [] customerName globalNote paymentStatus = None
  /\ (isRealtime s = false ->
      cart <> [] ->
      exists orderData order,
        CashierView.handleConfirmOrder cart customerName globalNote paymentStatus
        = Some orderData
        /\ createOrder s generateId now single orderData
           = (setOrders s (fun prev => order :: prev), [], Some order)
        /\ findOrder generateId (orders (setOrders s (fun prev => order :: prev)))
           = Some order
        /\ Order.total order = CashierView.cartTotal cart
        /\ Order.customerName order
           = (if String.eqb customerName "" then "Guest"%string
              else customerName)
        /\ map CartItem.id (Order.items order) = map CartItem.id cart
        /\ map CartItem.quantity (Order.items order) = map CartItem.quantity cart
        /\ preparedCountOf (Order.items order) = 0
        /\ Order.paymentStatus order = paymentStatus).
Proof.
  split; [reflexivity |].
  intros Hrt Hne.
  unfold CashierView.handleConfirmOrder.
  destruct cart as [| line cart']; [contradiction |]. simpl Nat.eqb. cbv iota.
  eexists. eexists. split; [reflexivity |].
  destruct (createOrder_local s generateId now single
              (OrderData.mk
                 (if truthyString customerName then customerName
                  else "Guest"%string)
                 (line :: cart') (CashierView.cartTotal (line :: cart'))
                 paymentStatus (Some globalNote)) Hrt) as [Hcreate Hfound].
  split; [exact Hcreate |]. split; [exact Hfound |].
  repeat split.
  - unfold truthyString. simpl. now destruct (String.eqb customerName "").
  - apply newOrderLocal_item_ids.
  - unfold newOrderLocal. simpl. f_equal. rewrite map_map. reflexivity.
  - apply newOrderLocal_unprepared.
Qed.

Lemma checkout_creates_order_witness :
  exists orderData order,
    CashierView.handleConfirmOrder sampleCart "" "no sugar" PaymentStatus.Unpaid
    = Some orderData
    /\ createOrder (localStore []) "a1b2c3d4e" "2024-05-01T08:00:00.000Z"
                   (fun _ => None) orderData
       = (setOrders (localStore []) (fun prev => order :: prev), [], Some order)
    /\ Order.total order = CashierView.cartTotal sampleCart
    /\ Order.customerName order = "Guest"%string.
Proof.
  destruct (proj2 (checkout_creates_order
                     (localStore []) "a1b2c3d4e" "2024-05-01T08:00:00.000Z"
                     (fun _ => None) sampleCart "" "no sugar"
                     PaymentStatus.Unpaid)
              eq_refl ltac:(discriminate))
    as (orderData & order & H1 & H2 & _ & H4 & H5 & _).
  exists orderData, order. repeat split; assumption.
Defined.

(** X18.  End to end.  Whatever the cashier tapped, a non-empty cart checked out
    in local mode gives an order that the kitchen completes by ticking each
    of its lines once, whether it was paid at the counter or not. *)
Theorem cashier_order_completes (events : list CartEvent) (s : Store)
        (generateId now : string) (single : OrdersInsert.t -> option DbOrder.t)
        (customerName globalNote : string) (paymentStatus : PaymentStatus.t) :
  isRealtime s = false ->
  runCart events <> [] ->
  exists orderData order order',
    CashierView.handleConfirmOrder (runCart events) customerName globalNote
                                   paymentStatus
    = Some orderData
    /\ snd (createOrder s generateId now single orderData) = Some order
    /\ findOrder generateId
         (orders (fst (toggleAll
                         (fst (fst (createOrder s generateId now single
                                                orderData)))
                         (map (fun i => (generateId, CartItem.id i))
                              (Order.items order)))))
       = Some order'
    /\ Order.status order' = OrderStatus.Completed
    /\ Order.total order' = CashierView.cartTotal (runCart events).
Proof.
  intros Hrt Hne.
  destruct (runCart_invariant events) as [Hnd _].
  unfold CashierView.handleConfirmOrder.
  destruct (runCart events) as [| line cart'] eqn:Hcart; [contradiction |].
  simpl Nat.eqb. cbv iota.
  set (orderData := OrderData.mk _ _ _ _ _).
  destruct (createOrder_local s generateId now single orderData Hrt)
    as [Hcreate Hfound].
  set (order := newOrderLocal generateId now orderData) in *.
  assert (Hrt1 : isRealtime (setOrders s (fun prev => order :: prev)) = false)
    by exact Hrt.
  destruct (newOrderLocal_live generateId now orderData) as [Hc Hp].
  assert (Hitems : Order.items order <> []) by discriminate.
  assert (Hnd1 : NoDup (map CartItem.id (Order.items order)))
    by (unfold order; now rewrite newOrderLocal_item_ids).
  destruct (kitchen_pass _ generateId order Hrt1 Hfound Hc Hp Hitems Hnd1
              (newOrderLocal_unprepared generateId now orderData))
    as (order' & Hfound' & Hdone & _).
  exists orderData, order, order'. rewrite Hcreate. simpl fst. simpl snd.
  repeat split; try assumption.
  pose proof (toggleAll_local (map CartItem.id (Order.items order)) _
                generateId order Hrt1 Hfound) as [Hfold _].
  rewrite map_map in Hfold. rewrite Hfold in Hfound'.
  injection Hfound' as <-.
  rewrite toggleSteps_total. reflexivity.
Qed.

Lemma cashier_order_completes_witness :
  exists orderData order order',
    CashierView.handleConfirmOrder
      (runCart [AddToCart icedLatte; AddToCart icedLatte;
                AddToCart (nth 2 DEFAULT_MENU icedLatte)])
      "Ani" "" PaymentStatus.Paid
    = Some orderData
    /\ snd (createOrder (localStore []) "a1b2c3d4e" "2024-05-01T08:00:00.000Z"
                        (fun _ => None) orderData) = Some order
    /\ findOrder "a1b2c3d4e"
         (orders (fst (toggleAll
                         (fst (fst (createOrder (localStore []) "a1b2c3d4e"
                                      "2024-05-01T08:00:00.000Z"
                                      (fun _ => None) orderData)))
                         (map (fun i => ("a1b2c3d4e"%string, CartItem.id i))
                              (Order.items order)))))
       = Some order'
    /\ Order.status order' = OrderStatus.Completed
    /\ Order.total order'
       = CashierView.cartTotal
           (runCart [AddToCart icedLatte; AddToCart icedLatte;
                     AddToCart (nth 2 DEFAULT_MENU icedLatte)]).
Proof.
  apply (cashier_order_completes
           [AddToCart icedLatte; AddToCart icedLatte;
            AddToCart (nth 2 DEFAULT_MENU icedLatte)]
           (localStore []) "a1b2c3d4e" "2024-05-01T08:00:00.000Z"
           (fun _ => None) "Ani" "" PaymentStatus.Paid);
    [reflexivity | discriminate].
Defined.

End Checkout.

(** * Menu edits *)

Section MenuEdit.
Local Open Scope Z_scope.
Import UseStore.

(** X19.  In realtime mode an edit changes nothing locally and sends one update
    whose document carries a name only if it is non-empty, a base price
    only if it is non-zero, the category as given and the bundle if one is
    given: a price of 0 or an empty name never reaches the backend. *)
Theorem updateMenuItem_realtime_document (s : Store) (id : string)
        (updates : MenuUpdates.t) :
  isRealtime s = true ->
  exists d,
    updateMenuItem s id updates = (s, [MenuItemsUpdateEq d id])
    /\ (forall n, DbUpdates.name d = Some n
                  <-> MenuUpdates.name updates = Some n /\ n <> ""%string)
    /\ (forall p, DbUpdates.base_price d = Some p
                  <-> MenuUpdates.basePrice updates = Some p /\ p <> 0)
    /\ DbUpdates.category d = MenuUpdates.category updates
    /\ (forall b, DbUpdates.bundle_config d = Some b
                  <-> MenuUpdates.bundle updates = Some (Some b)).
Proof.
  intros Hrt. unfold updateMenuItem. rewrite Hrt.
  eexists. split; [reflexivity |].
  unfold dbUpdatesOf. simpl.
  split; [| split; [| split; [reflexivity |]]].
  - intros n. destruct (MenuUpdates.name updates) as [v |];
      [| split; [discriminate | intros [H _]; discriminate]].
    unfold truthyString. destruct (String.eqb_spec v ""); simpl; split.
    + discriminate.
    + intros [[= <-] Hne]. contradiction.
    + intros [= <-]. now split.
    + intros [[= <-] _]. reflexivity.
  - intros p. destruct (MenuUpdates.basePrice updates) as [v |];
      [| split; [discriminate | intros [H _]; discriminate]].
    unfold truthyZ. destruct (Z.eqb_spec v 0); simpl; split.
    + discriminate.
    + intros [[= <-] Hne]. contradiction.
    + intros [= <-]. now split.
    + intros [[= <-] _]. reflexivity.
  - intros b. destruct (MenuUpdates.bundle updates) as [[v |] |];
      split; congruence.
Qed.

Lemma updateMenuItem_realtime_document_witness :
  exists d,
    updateMenuItem (realtimeStore []) "2"
      (MenuUpdates.mk None (Some "Iced Latte"%string) (Some 0) (Some Coffee)
                      None None)
    = (realtimeStore [], [MenuItemsUpdateEq d "2"])
    /\ DbUpdates.base_price d = None.
Proof.
  destruct (updateMenuItem_realtime_document (realtimeStore []) "2"
              (MenuUpdates.mk None (Some "Iced Latte"%string) (Some 0)
                              (Some Coffee) None None) eq_refl)
    as (d & Hd & _ & Hprice & _).
  exists d. split; [exact Hd |].
  destruct (DbUpdates.base_price d) as [p |] eqn:E; [| reflexivity].
  destruct (proj1 (Hprice p) eq_refl) as [[= <-] Hne]. now elim Hne.
Defined.

(** X20.  In local mode the same edit is a spread over every item under the id:
    the menu keeps its length, items under other ids keep their place and
    content, and an edited item takes each given name and base price as
    it is, 0 and the empty name included. *)
Theorem updateMenuItem_local_spread (s : Store) (id : string)
        (updates : MenuUpdates.t) (n : nat) (item : MenuItem.t) :
  isRealtime s = false ->
  nth_error (menu s) n = Some item ->
  snd (updateMenuItem s id updates) = []
  /\ List.length (menu (fst (updateMenuItem s id updates)))
     = List.length (menu s)
  /\ (MenuItem.id item <> id ->
      nth_error (menu (fst (updateMenuItem s id updates))) n = Some item)
  /\ (MenuItem.id item = id ->
      exists item',
        nth_error (menu (fst (updateMenuItem s id updates))) n = Some item'
        /\ (forall p, MenuUpdates.basePrice updates = Some p ->
                      MenuItem.basePrice item' = p)
        /\ (forall v, MenuUpdates.name updates = Some v ->
                      MenuItem.name item' = v)
        /\ (MenuUpdates.basePrice updates = None ->
            MenuItem.basePrice item' = MenuItem.basePrice item)
        /\ (MenuUpdates.name updates = None ->
            MenuItem.name item' = MenuItem.name item)).
Proof.
  intros Hrt Hn. unfold updateMenuItem. rewrite Hrt. simpl.
  split; [reflexivity |]. split; [apply length_map |].
  rewrite nth_error_map, Hn. simpl. split.
  - intros Hne. apply String.eqb_neq in Hne. now rewrite Hne.
  - intros Heq. apply String.eqb_eq in Heq. rewrite Heq.
    eexists. split; [reflexivity |].
    unfold MenuUpdates.spread. simpl.
    repeat split; intros; match goal with H : _ = _ |- _ => now rewrite H end.
Qed.

Lemma updateMenuItem_local_spread_witness :
  exists item',
    nth_error (menu (fst (updateMenuItem (localStore []) "2"
                            (MenuUpdates.mk None None (Some 0) None None None))))
              1
    = Some item'
    /\ MenuItem.basePrice item' = 0.
Proof.
  destruct (updateMenuItem_local_spread (localStore []) "2"
              (MenuUpdates.mk None None (Some 0) None None None) 1 icedLatte
              eq_refl eq_refl)
    as (_ & _ & _ & Hsame).
  destruct (Hsame eq_refl) as (item' & Hnth & Hprice & _).
  exists item'. split; [exact Hnth | now apply Hprice].
Defined.

(** X21.  An item saved from the form with the bundle switch off, or with a buy
    quantity or bundle price that does not parse to a non-zero number, is
    charged the plain price at every quantity; the form never sets an
    image and always sets a bundle object. *)
Theorem form_item_plain_price (parseInt : string -> option Z)
        (f : ItemModal.Form) (s : Store) (generateId : string) (quantity : Z) :
  isRealtime s = false ->
  ItemModal.bundleEnabled f = false
  \/ ItemModal.parseIntOr0 parseInt (ItemModal.buyQuantity f) = 0
  \/ ItemModal.parseIntOr0 parseInt (ItemModal.bundlePrice f) = 0 ->
  exists item,
    nth_error (menu (fst (addMenuItem s generateId
                            (ItemModal.handleSubmit parseInt f))))
              (List.length (menu s))
    = Some item
    /\ MenuItem.id item = generateId
    /\ MenuItem.image item = None
    /\ MenuItem.bundle item <> None
    /\ Utils.calculateItemTotal item quantity
       = MenuItem.basePrice item * quantity.
Proof.
  intros Hrt Hoff. unfold addMenuItem. rewrite Hrt. simpl.
  rewrite nth_error_app2 by lia. rewrite Nat.sub_diag. simpl.
  eexists. split; [reflexivity |].
  repeat split; [discriminate |].
  eapply calculateItemTotal_inert; [reflexivity |]. simpl.
  destruct (ItemModal.bundleEnabled f); [| now left].
  destruct Hoff as [H | [H | H]]; [discriminate | right; now left | right; now right].
Qed.

Lemma form_item_plain_price_witness :
  exists item,
    nth_error (menu (fst (addMenuItem (localStore []) "7f3c"
                            (ItemModal.handleSubmit (fun _ => None)
                               (ItemModal.mkForm "Matcha" "32000" Tea true
                                                 "" "" true)))))
              (List.length (menu (localStore [])))
    = Some item
    /\ MenuItem.id item = "7f3c"%string
    /\ MenuItem.image item = None
    /\ MenuItem.bundle item <> None
    /\ Utils.calculateItemTotal item 4 = MenuItem.basePrice item * 4.
Proof.
  apply (form_item_plain_price (fun _ => None)
           (ItemModal.mkForm "Matcha" "32000" Tea true "" "" true)
           (localStore []) "7f3c" 4 eq_refl).
  right. left. reflexivity.
Defined.

End MenuEdit.

(** * Realtime notifications *)

Section Realtime.
Import UseStore.

(** X22.  An update notification never moves, adds or removes a row: both
    collections keep their sequence of ids. *)
Theorem update_notification_keeps_ids
        (newItem : DbMenuItem.t) (prevMenu : list MenuItem.t)
        (newOrder : DbOrder.t) (prevOrders : list Order.t) :
  map MenuItem.id (menuSub (UPDATE newItem) prevMenu) = map MenuItem.id prevMenu
  /\ map Order.id (ordersSub (UPDATE newOrder) prevOrders)
     = map Order.id prevOrders.
Proof.
  split; simpl; rewrite map_map; apply map_ext; intros x.
  - destruct (String.eqb_spec (MenuItem.id x) (DbMenuItem.id newItem));
      [symmetry; assumption | reflexivity].
  - destruct (String.eqb_spec (Order.id x) (DbOrder.id newOrder));
      [symmetry; assumption | reflexivity].
Qed.



(** X24.  A notification about an id the collection does not hold: an update
    changes neither collection, a delete does not change the menu. *)
Theorem notification_unknown_id
        (row : DbMenuItem.t) (prevMenu : list MenuItem.t)
        (newOrder : DbOrder.t) (prevOrders : list Order.t) :
  (forall x, In x prevMenu -> MenuItem.id x <> DbMenuItem.id row) ->
  findOrder (DbOrder.id newOrder) prevOrders = None ->
  menuSub (UPDATE row) prevMenu = prevMenu
  /\ menuSub (DELETE row) prevMenu = prevMenu
  /\ ordersSub (UPDATE newOrder) prevOrders = prevOrders.
Proof.
  intros Hmenu Horders. repeat split; simpl.
  - rewrite <- (map_id prevMenu) at 2. apply map_ext_in. intros x Hx.
    apply Hmenu in Hx. apply String.eqb_neq in Hx. now rewrite Hx.
  - induction prevMenu as [| x l IH]; simpl; [reflexivity |].
    pose proof (Hmenu x (or_introl eq_refl)) as Hx.
    apply String.eqb_neq in Hx. rewrite Hx. simpl. f_equal.
    apply IH. intros y Hy. apply Hmenu. now right.
  - now apply (map_unmatched (DbOrder.id newOrder) (fun _ => mapDbOrder newOrder)).
Qed.

Lemma notification_unknown_id_witness :
  menuSub (UPDATE (DbMenuItem.mk "9" "Matcha" 32000 Tea None None)) DEFAULT_MENU
  = DEFAULT_MENU
  /\ menuSub (DELETE (DbMenuItem.mk "9" "Matcha" 32000 Tea None None))
             DEFAULT_MENU
     = DEFAULT_MENU
  /\ ordersSub (UPDATE (sampleOrderRow OrderStatus.Completed)) [emptyOrder]
     = [emptyOrder].
Proof.
  apply (notification_unknown_id
           (DbMenuItem.mk "9" "Matcha" 32000 Tea None None) DEFAULT_MENU
           (sampleOrderRow OrderStatus.Completed) [emptyOrder]);
    [| reflexivity].
  intros x [<- | [<- | [<- | [<- | []]]]]; simpl; discriminate.
Defined.

(** X25.  A menu row that is announced and then withdrawn leaves the menu as it
    was, provided its id was not there before. *)
Theorem menu_insert_then_delete (row : DbMenuItem.t) (prev : list MenuItem.t) :
  (forall x, In x prev -> MenuItem.id x <> DbMenuItem.id row) ->
  menuSub (DELETE row) (menuSub (INSERT row) prev) = prev.
Proof.
  intros Hfresh. simpl. rewrite filter_app. simpl.
  rewrite String.eqb_refl. simpl. rewrite app_nil_r.
  induction prev as [| x l IH]; simpl; [reflexivity |].
  pose proof (Hfresh x (or_introl eq_refl)) as Hx.
  apply String.eqb_neq in Hx. rewrite Hx. simpl. f_equal.
  apply IH. intros y Hy. apply Hfresh. now right.
Qed.

Lemma menu_insert_then_delete_witness :
  menuSub (DELETE (DbMenuItem.mk "9" "Matcha" 32000 Tea None None))
          (menuSub (INSERT (DbMenuItem.mk "9" "Matcha" 32000 Tea None None))
                   DEFAULT_MENU)
  = DEFAULT_MENU.
Proof.
  apply (menu_insert_then_delete
           (DbMenuItem.mk "9" "Matcha" 32000 Tea None None) DEFAULT_MENU).
  intros x [<- | [<- | [<- | [<- | []]]]]; simpl; discriminate.
Defined.

(** X26.  Creating an order in realtime mode leaves the local state alone and
    sends one insert, whatever the backend answers; with no data it returns
    nothing.  When the backend stored the document, the order returned has
    the fields of the order built locally under the backend's id and
    timestamp, and the insert notification puts it on top of the
    collection, found under its id. *)
Theorem createOrder_realtime_round_trip (s : Store) (generateId now : string)
        (single : OrdersInsert.t -> option DbOrder.t)
        (orderData : OrderData.t) :
  isRealtime s = true ->
  fst (createOrder s generateId now single orderData)
  = (s, [OrdersInsertSelect
           (dbOrderOf orderData (newOrderLocal generateId now orderData))])
  /\ (single (dbOrderOf orderData (newOrderLocal generateId now orderData))
      = None ->
      snd (createOrder s generateId now single orderData) = None)
  /\ (forall row,
        single (dbOrderOf orderData (newOrderLocal generateId now orderData))
        = Some row ->
        storesDocument row
          (dbOrderOf orderData (newOrderLocal generateId now orderData)) ->
        exists order,
          createOrder s generateId now single orderData
          = (s, [OrdersInsertSelect
                   (dbOrderOf orderData
                      (newOrderLocal generateId now orderData))],
             Some order)
          /\ order
             = Order.mk (DbOrder.id row)
                        (OrderData.customerName orderData)
                        (Order.items (newOrderLocal generateId now orderData))
                        (OrderData.total orderData)
                        (Order.status (newOrderLocal generateId now orderData))
                        (OrderData.paymentStatus orderData)
                        (DbOrder.created_at row)
                        (OrderData.note orderData)
          /\ ordersSub (INSERT row) (orders s) = order :: orders s
          /\ findOrder (DbOrder.id row) (ordersSub (INSERT row) (orders s))
             = Some order).
Proof.
  intros Hrt. unfold createOrder. rewrite Hrt.
  split; [| split].
  - now destruct (single _).
  - intros Hnone. now rewrite Hnone.
  - intros row Hsingle (Hn & Hi & Ht & Hs & Hp & Hnote).
    rewrite Hsingle.
    eexists. split; [reflexivity |].
    split; [| split].
    + unfold mapDbOrder. rewrite Hn, Hi, Ht, Hs, Hp, Hnote. reflexivity.
    + reflexivity.
    + unfold findOrder. simpl. now rewrite String.eqb_refl.
Qed.

Lemma createOrder_realtime_round_trip_witness :
  exists order,
    createOrder (realtimeStore []) "a1b2c3d4e" "2024-05-01T08:00:00.000Z"
                (storingBackend "9d1e" "2024-05-01T08:00:01.000Z") paidCheckout
    = (realtimeStore [],
       [OrdersInsertSelect
          (dbOrderOf paidCheckout
             (newOrderLocal "a1b2c3d4e" "2024-05-01T08:00:00.000Z" paidCheckout))],
       Some order)
    /\ Order.id order = "9d1e"%string
    /\ Order.total order = 80000%Z.
Proof.
  destruct (proj2 (proj2 (createOrder_realtime_round_trip
                            (realtimeStore []) "a1b2c3d4e"
                            "2024-05-01T08:00:00.000Z"
                            (storingBackend "9d1e" "2024-05-01T08:00:01.000Z")
                            paidCheckout eq_refl))
              _ eq_refl ltac:(repeat split))
    as (order & Hcreate & -> & _).
  eexists. split; [exact Hcreate |]. split; reflexivity.
Defined.

End Realtime.

(** * Admin dashboard and analytics *)

Section Dashboard.
Local Open Scope Z_scope.
Import UseStore.

Lemma sum_from {A : Type} (f : A -> Z) (l : list A) (start : Z) :
  fold_left (fun sum x => sum + f x) l start
  = start + fold_left (fun sum x => sum + f x) l 0.
Proof.
  revert start. induction l as [| x l IH]; intros start; simpl; [lia |].
  rewrite (IH (start + f x)), (IH (f x)). lia.
Qed.

Lemma totalRevenue_cons (o : Order.t) (l : list Order.t) :
  AdminDashboard.totalRevenue (o :: l)
  = (if OrderStatus.eqb (Order.status o) OrderStatus.Cancelled
     then 0 else Order.total o)
    + AdminDashboard.totalRevenue l.
Proof.
  unfold AdminDashboard.totalRevenue. simpl.
  destruct (OrderStatus.eqb (Order.status o) OrderStatus.Cancelled); simpl;
    [reflexivity |].
  now rewrite sum_from.
Qed.

Lemma findOrder_absent (id : string) (l : list Order.t) :
  ~ In id (map Order.id l) -> findOrder id l = None.
Proof.
  unfold findOrder. induction l as [| o l IH]; simpl; intros H; [reflexivity |].
  destruct (String.eqb_spec (Order.id o) id) as [E | E].
  - elim H. now left.
  - apply IH. intros Hin. apply H. now right.
Qed.

(** X27.  With distinct order ids, a confirmed cancellation of an order that was
    not cancelled before takes exactly that order's total off the
    dashboard revenue; an unconfirmed one changes nothing. *)
Theorem cancel_reduces_revenue (s : Store) (orderId : string) (order : Order.t) :
  isRealtime s = false ->
  NoDup (map Order.id (orders s)) ->
  findOrder orderId (orders s) = Some order ->
  Order.status order <> OrderStatus.Cancelled ->
  AdminDashboard.totalRevenue
    (orders (fst (AdminDashboard.handleCancelOrder true s orderId)))
  = AdminDashboard.totalRevenue (orders s) - Order.total order
  /\ AdminDashboard.handleCancelOrder false s orderId = (s, []).
Proof.
  intros Hrt Hnd Hfind Hlive. split; [| reflexivity].
  unfold AdminDashboard.handleCancelOrder, updateOrderStatus.
  rewrite Hrt. simpl.
  revert Hnd Hfind. generalize (orders s). intros l.
  induction l as [| o l IH]; intros Hnd Hfind; [discriminate |].
  inversion Hnd as [| x xs Hnotin Hnd']; subst.
  unfold findOrder in Hfind. simpl in Hfind. simpl map.
  destruct (String.eqb (Order.id o) orderId) eqn:E.
  - injection Hfind as ->. apply String.eqb_eq in E. subst orderId.
    rewrite (map_unmatched (Order.id order) _ l (findOrder_absent _ _ Hnotin)).
    rewrite !totalRevenue_cons. simpl.
    apply status_eqb_neq in Hlive. rewrite Hlive. lia.
  - rewrite !totalRevenue_cons. rewrite (IH Hnd' Hfind). lia.
Qed.

Lemma cancel_reduces_revenue_witness :
  AdminDashboard.totalRevenue
    (orders (fst (AdminDashboard.handleCancelOrder true
                    (localStore [emptyOrder; sampleOrder OrderStatus.Preparing])
                    "k3x9q2m1a")))
  = AdminDashboard.totalRevenue [emptyOrder; sampleOrder OrderStatus.Preparing]
    - 80000.
Proof.
  refine (proj1 (cancel_reduces_revenue
                   (localStore [emptyOrder; sampleOrder OrderStatus.Preparing])
                   "k3x9q2m1a" (sampleOrder OrderStatus.Preparing)
                   eq_refl _ eq_refl ltac:(discriminate))).
  simpl. repeat constructor; simpl; intuition discriminate.
Defined.

(** X28.  The two dashboard counters, the Cancelled orders and the orders whose
    status is still Paid split the collection: an order seeded Paid is
    counted as neither pending nor completed. *)
Theorem dashboard_counters_partition (orders : list Order.t) :
  (AdminDashboard.pendingOrders orders + AdminDashboard.completedOrders orders
   + List.length (AdminDashboard.filteredOrders
                    (AdminDashboard.Status OrderStatus.Cancelled) orders)
   + List.length (AdminDashboard.filteredOrders
                    (AdminDashboard.Status OrderStatus.Paid) orders)
   = List.length orders)%nat.
Proof.
  unfold AdminDashboard.pendingOrders, AdminDashboard.completedOrders,
    AdminDashboard.filteredOrders.
  induction orders as [| o l IH]; simpl; [reflexivity |].
  destruct (Order.status o); simpl; lia.
Qed.

(** X29.  The filter tabs have no Paid tab: an order whose status is Paid is
    listed under All and under no other tab. *)
Theorem paid_order_only_under_all (tab : AdminDashboard.OrderFilter)
        (order : Order.t) (orders : list Order.t) :
  In tab AdminDashboard.filterTabs ->
  In order orders ->
  Order.status order = OrderStatus.Paid ->
  In order (AdminDashboard.filteredOrders tab orders)
  <-> tab = AdminDashboard.All.
Proof.
  intros Htab Hin Hpaid. unfold AdminDashboard.filteredOrders.
  rewrite filter_In. split.
  - intros [_ Hkeep]. rewrite Hpaid in Hkeep.
    simpl in Htab.
    destruct Htab as [<- | [<- | [<- | [<- | [<- | [<- | []]]]]]];
      [reflexivity | discriminate ..].
  - intros ->. now split.
Qed.

Lemma paid_order_only_under_all_witness :
  In (sampleOrder OrderStatus.Paid)
     (AdminDashboard.filteredOrders AdminDashboard.All
        [sampleOrder OrderStatus.Paid])
  <-> AdminDashboard.All = AdminDashboard.All.
Proof.
  apply (paid_order_only_under_all AdminDashboard.All
           (sampleOrder OrderStatus.Paid) [sampleOrder OrderStatus.Paid]);
    [left; reflexivity | left; reflexivity | reflexivity].
Defined.

End Dashboard.

(** * Daily analytics *)

Section Analytics.
Local Open Scope Z_scope.
Import DailyAnalytics.

Lemma chartOrders_app (a b : list Hour) :
  chartOrders (a ++ b) = (chartOrders a + chartOrders b)%nat.
Proof.
  unfold chartOrders. induction a as [| h a IH]; simpl; [reflexivity |].
  rewrite IH. lia.
Qed.

Lemma chartRevenue_app (a b : list Hour) :
  chartRevenue (a ++ b) = chartRevenue a + chartRevenue b.
Proof.
  unfold chartRevenue. induction a as [| h a IH]; simpl; [reflexivity |].
  rewrite IH. lia.
Qed.

Lemma skipn_at {A : Type} (l : list A) (n : nat) (x : A) :
  nth_error l n = Some x -> skipn n l = x :: skipn (S n) l.
Proof.
  revert n. induction l as [| a l IH]; intros [| n]; simpl; try discriminate.
  - now intros [= ->].
  - intros H. now apply IH.
Qed.

(** One order moves one bucket: one more order, and its total if it
    counts as completed. *)
Lemma countOrder_sums (getHours : string -> option nat) (hours hours' : list Hour)
      (order : Order.t) :
  countOrder getHours hours order = Some hours' ->
  List.length hours' = List.length hours
  /\ chartOrders hours' = (chartOrders hours + 1)%nat
  /\ chartRevenue hours' = chartRevenue hours + credit order.
Proof.
  unfold countOrder, credit.
  destruct (getHours (Order.createdAt order)) as [h |]; [| discriminate].
  destruct (nth_error hours h) as [slot |] eqn:Hslot; [| discriminate].
  pose proof (firstn_skipn h hours) as Hsplit.
  rewrite (skipn_at hours h slot Hslot) in Hsplit.
  remember (firstn h hours) as before eqn:Hbefore.
  remember (skipn (S h) hours) as after eqn:Hafter.
  clear Hbefore Hafter Hslot. subst hours.
  intros Hsome. injection Hsome as <-.
  split; [| split].
  - rewrite !length_app. reflexivity.
  - rewrite !chartOrders_app.
    change (chartOrders (slot :: after))
      with (hourOrders slot + chartOrders after)%nat.
    destruct (isCompleted order);
      match goal with
      | |- context [chartOrders (?x :: after)] =>
          change (chartOrders (x :: after))
            with (hourOrders x + chartOrders after)%nat
      end; simpl; lia.
  - rewrite !chartRevenue_app.
    change (chartRevenue (slot :: after))
      with (hourRevenue slot + chartRevenue after).
    destruct (isCompleted order);
      match goal with
      | |- context [chartRevenue (?x :: after)] =>
          change (chartRevenue (x :: after))
            with (hourRevenue x + chartRevenue after)
      end; simpl; lia.
Qed.

Lemma revenue_cons (o : Order.t) (l : list Order.t) :
  revenue (stats (o :: l)) = credit o + revenue (stats l).
Proof.
  unfold stats, credit. simpl.
  destruct (isCompleted o); simpl; [| lia].
  now rewrite sum_from.
Qed.

Lemma forEachOrder_sums (getHours : string -> option nat)
      (todayOrders : list Order.t) (hours : list Hour) :
  Forall (fun o => exists h, getHours (Order.createdAt o) = Some h
                             /\ (h < List.length hours)%nat) todayOrders ->
  exists hours',
    forEachOrder getHours todayOrders hours = Some hours'
    /\ List.length hours' = List.length hours
    /\ chartOrders hours' = (chartOrders hours + List.length todayOrders)%nat
    /\ chartRevenue hours' = chartRevenue hours + revenue (stats todayOrders).
Proof.
  revert hours. induction todayOrders as [| o l IH]; intros hours Hvalid.
  - exists hours. simpl. repeat split; lia.
  - inversion Hvalid as [| x xs (h & Hh & Hlt) Hrest]; subst.
    rewrite revenue_cons. cbn [forEachOrder List.length].
    destruct (countOrder getHours hours o) as [hours1 |] eqn:Hcount.
    2: { unfold countOrder in Hcount. rewrite Hh in Hcount.
         apply nth_error_Some in Hlt.
         destruct (nth_error hours h); [discriminate | contradiction]. }
    destruct (countOrder_sums getHours hours hours1 o Hcount)
      as (Hlen & Hord & Hrev).
    destruct (IH hours1) as (hours' & Hrun & Hlen' & Hord' & Hrev').
    { rewrite Hlen. exact Hrest. }
    exists hours'. split; [exact Hrun |].
    repeat split; lia.
Qed.

(** X30.  The hourly chart and the summary cards agree: when every order of the
    day has a readable hour, the chart has its 24 buckets, the order
    columns add up to the number of orders and the revenue columns add up
    to the revenue card. *)
Theorem chartData_matches_stats (getHours : string -> option nat)
        (todayOrders : list Order.t) :
  Forall (fun o => exists h, getHours (Order.createdAt o) = Some h
                             /\ (h < 24)%nat) todayOrders ->
  exists hours,
    chartData getHours todayOrders = Some hours
    /\ List.length hours = 24%nat
    /\ chartOrders hours = totalOrders (stats todayOrders)
    /\ chartRevenue hours = revenue (stats todayOrders).
Proof.
  intros Hvalid.
  destruct (forEachOrder_sums getHours todayOrders emptyHours Hvalid)
    as (hours & Hrun & Hlen & Hord & Hrev).
  exists hours. split; [exact Hrun |].
  split; [exact Hlen |]. split.
  - rewrite Hord. reflexivity.
  - rewrite Hrev. reflexivity.
Qed.

Lemma chartData_matches_stats_witness :
  exists hours,
    chartData (fun _ => Some 8%nat)
              [sampleOrder OrderStatus.Completed; sampleOrder OrderStatus.Pending]
    = Some hours
    /\ List.length hours = 24%nat
    /\ chartOrders hours = 2%nat
    /\ chartRevenue hours = 80000.
Proof.
  apply (chartData_matches_stats (fun _ => Some 8%nat)
           [sampleOrder OrderStatus.Completed; sampleOrder OrderStatus.Pending]).
  apply Forall_cons; [exists 8%nat; split; [reflexivity | lia] |].
  apply Forall_cons; [exists 8%nat; split; [reflexivity | lia] |].
  apply Forall_nil.
Defined.

End Analytics.
